(** * mezzanine-swingtime (fullcalendar): events, occurrences and agenda tags

    A shallow embedding of [fullcalendar/models.py] and of the
    [occurrence_duration] tag of [fullcalendar/templatetags/fullcalendar.py],
    with the properties their specification states about them.

    Layout:
    - [Datetime]: the part of Python's [datetime] the code relies on
      (field records, comparison, ordinals, arithmetic, [strftime]);
    - [Py]: exceptions, keyword dictionaries, [str.format];
    - [RRule]: the interface of [dateutil.rrule] as the code calls it, and an
      executable instance for plain rules;
    - [Models]: [Event], [Occurrence], the query sets and managers;
    - [TemplateTags]: [occurrence_duration];
    - [Spec]: the words of the specification (day window, formats);
    - [Sample]: concrete data for the examples;
    - the properties. *)

From Stdlib Require Import ZArith List String Ascii Bool Lia.
From stdpp Require Import base option list gmap strings sorting.

Local Open Scope string_scope.
Local Open Scope list_scope.
Local Open Scope Z_scope.

(* ===================================================================== *)
(** ** Python's [datetime] *)
(* ===================================================================== *)

Module Datetime.

(** A naive [datetime.datetime]: the seven fields Python stores.  All
    datetimes of one run live on one time line (no mixing of naive and aware
    values), as the code assumes when it compares [datetime.now()] with
    stored values. *)
Record datetime : Type := mkdatetime {
  year : Z; month : Z; day : Z;
  hour : Z; minute : Z; second : Z; microsecond : Z
}.

(** A [datetime.date]. *)
Record date : Type := mkdate { d_year : Z; d_month : Z; d_day : Z }.

(** [datetime(year, month, day)]: midnight of that day.  The code only calls
    it on the fields of an existing date, for which the constructor's range
    check cannot fail. *)
Definition datetime_ymd (y m d : Z) : datetime := mkdatetime y m d 0 0 0 0.

(** [dt.replace(hour=h, minute=mi, second=s)]. *)
Definition replace_hms (dt : datetime) (h mi s : Z) : datetime :=
  mkdatetime (year dt) (month dt) (day dt) h mi s (microsecond dt).

(** [dt.replace(microsecond=us)]. *)
Definition replace_microsecond (dt : datetime) (us : Z) : datetime :=
  mkdatetime (year dt) (month dt) (day dt) (hour dt) (minute dt) (second dt) us.

(** [dt.date()]. *)
Definition date_of (dt : datetime) : date :=
  mkdate (year dt) (month dt) (day dt).

(** *** Comparison: field by field, most significant first
    ([datetime._cmp] compares the tuples of fields). *)

Definition lex (c1 c2 : comparison) : comparison :=
  match c1 with Eq => c2 | _ => c1 end.

Definition cmp (a b : datetime) : comparison :=
  lex (year a ?= year b)
  (lex (month a ?= month b)
  (lex (day a ?= day b)
  (lex (hour a ?= hour b)
  (lex (minute a ?= minute b)
  (lex (second a ?= second b)
       (microsecond a ?= microsecond b)))))).

Definition ltb (a b : datetime) : bool :=
  match cmp a b with Lt => true | _ => false end.
Definition leb (a b : datetime) : bool :=
  match cmp a b with Gt => false | _ => true end.
Definition gtb (a b : datetime) : bool := ltb b a.
Definition geb (a b : datetime) : bool := leb b a.

Definition lt (a b : datetime) : Prop := cmp a b = Lt.
Definition le (a b : datetime) : Prop := cmp a b <> Gt.

(** *** The proleptic Gregorian calendar ([Lib/datetime.py]) *)

Definition is_leap (y : Z) : bool :=
  (y mod 4 =? 0) && (negb (y mod 100 =? 0) || (y mod 400 =? 0)).

Definition days_before_year (y : Z) : Z :=
  let y := y - 1 in y * 365 + y / 4 - y / 100 + y / 400.

(** [_DAYS_IN_MONTH], indexed from 1. *)
Definition DAYS_IN_MONTH (m : Z) : Z :=
  nth (Z.to_nat m) [0; 31; 28; 31; 30; 31; 30; 31; 31; 30; 31; 30; 31] 0.

(** [_DAYS_BEFORE_MONTH], indexed from 1. *)
Definition DAYS_BEFORE_MONTH (m : Z) : Z :=
  nth (Z.to_nat m) [0; 0; 31; 59; 90; 120; 151; 181; 212; 243; 273; 304; 334] 0.

Definition days_in_month (y m : Z) : Z :=
  if (m =? 2) && is_leap y then 29 else DAYS_IN_MONTH m.

Definition days_before_month (y m : Z) : Z :=
  DAYS_BEFORE_MONTH m + (if (2 <? m) && is_leap y then 1 else 0).

Definition ymd2ord (y m d : Z) : Z :=
  days_before_year y + days_before_month y m + d.

Definition DI400Y : Z := 146097.
Definition DI100Y : Z := 36524.
Definition DI4Y : Z := 1461.
Definition MAXORDINAL : Z := 3652059.   (* date(9999, 12, 31).toordinal() *)

Definition ord2ymd (n : Z) : Z * Z * Z :=
  let n := n - 1 in
  let n400 := n / DI400Y in
  let n := n mod DI400Y in
  let y := n400 * 400 + 1 in
  let n100 := n / DI100Y in
  let n := n mod DI100Y in
  let n4 := n / DI4Y in
  let n := n mod DI4Y in
  let n1 := n / 365 in
  let n := n mod 365 in
  let y := y + n100 * 100 + n4 * 4 + n1 in
  if (n1 =? 4) || (n100 =? 4) then (y - 1, 12, 31)
  else
    let leapyear := (n1 =? 3) && (negb (n4 =? 24) || (n100 =? 3)) in
    let m := Z.shiftr (n + 50) 5 in
    let preceding :=
      DAYS_BEFORE_MONTH m + (if (2 <? m) && leapyear then 1 else 0) in
    if n <? preceding then
      let m := m - 1 in
      let preceding :=
        preceding - (DAYS_IN_MONTH m + (if (m =? 2) && leapyear then 1 else 0)) in
      (y, m, n - preceding + 1)
    else (y, m, n - preceding + 1).

Definition toordinal (dt : datetime) : Z :=
  ymd2ord (year dt) (month dt) (day dt).

(** [dt.weekday()]: Monday is 0. *)
Definition weekday (dt : datetime) : Z := (toordinal dt + 6) mod 7.

(** The range check of the [datetime] constructor. *)
Definition valid (dt : datetime) : bool :=
  (1 <=? year dt) && (year dt <=? 9999) &&
  (1 <=? month dt) && (month dt <=? 12) &&
  (1 <=? day dt) && (day dt <=? days_in_month (year dt) (month dt)) &&
  (0 <=? hour dt) && (hour dt <=? 23) &&
  (0 <=? minute dt) && (minute dt <=? 59) &&
  (0 <=? second dt) && (second dt <=? 59) &&
  (0 <=? microsecond dt) && (microsecond dt <=? 999999).

(** *** Checking the calendar over one 400-year cycle

    The Gregorian calendar repeats every [DI400Y] days; what holds of every
    day of one cycle, found by running through it, holds of every day. *)

(** Dates as triples, compared like datetimes. *)
Definition date_cmp (a b : Z * Z * Z) : comparison :=
  let '(y1, m1, d1) := a in
  let '(y2, m2, d2) := b in
  lex (y1 ?= y2) (lex (m1 ?= m2) (d1 ?= d2)).

Definition shift_years (k : Z) (a : Z * Z * Z) : Z * Z * Z :=
  let '(y, m, d) := a in (y + k, m, d).

Definition ymd2ord_of (a : Z * Z * Z) : Z :=
  let '(y, m, d) := a in ymd2ord y m d.

(** [f] holds of the [k] integers from [z] on. *)
Fixpoint all_from (f : Z -> bool) (k : nat) (z : Z) : bool :=
  match k with
  | O => true
  | S k => f z && all_from f k (z + 1)
  end.

(** Walking [k] days from day [n] on, [prev] being the date of the day
    before: each date comes after the one before and leads back to its
    day. *)
Fixpoint cycle_walk (k : nat) (n : Z) (prev : Z * Z * Z) : bool :=
  match k with
  | O => true
  | S k =>
      let cur := ord2ymd n in
      match date_cmp prev cur with
      | Lt => (ymd2ord_of cur =? n) && cycle_walk k (n + 1) cur
      | _ => false
      end
  end.

(** *** Arithmetic

    A [timedelta] is normalised by Python to (days, seconds, microseconds)
    with [0 <= seconds < 86400] and [0 <= microseconds < 10^6]; such triples
    are in bijection with their total number of microseconds, which is what
    the model keeps. *)
Definition timedelta : Type := Z.

Definition US_PER_SECOND : Z := 1000000.
Definition US_PER_DAY : Z := 86400 * US_PER_SECOND.

Definition timedelta_of (days seconds microseconds : Z) : timedelta :=
  days * US_PER_DAY + seconds * US_PER_SECOND + microseconds.

(** Microseconds from the start of ordinal 0 to [dt]. *)
Definition to_us (dt : datetime) : Z :=
  timedelta_of (toordinal dt)
    (second dt + minute dt * 60 + hour dt * 3600) (microsecond dt).

(** [a - b] ([datetime.__sub__] on two naive datetimes). *)
Definition sub (a b : datetime) : timedelta :=
  timedelta_of (toordinal a - toordinal b)
    ((second a + minute a * 60 + hour a * 3600)
     - (second b + minute b * 60 + hour b * 3600))
    (microsecond a - microsecond b).

(** [dt + delta] ([datetime.__add__]); [None] is [OverflowError]
    ("date value out of range"). *)
Definition add (dt : datetime) (delta : timedelta) : option datetime :=
  let total := to_us dt + delta in
  let days := total / US_PER_DAY in
  let rest := total mod US_PER_DAY in
  let seconds := rest / US_PER_SECOND in
  let us := rest mod US_PER_SECOND in
  let h := seconds / 3600 in
  let rem := seconds mod 3600 in
  let mi := rem / 60 in
  let s := rem mod 60 in
  if (0 <? days) && (days <=? MAXORDINAL) then
    let '(y, m, d) := ord2ymd days in
    Some (mkdatetime y m d h mi s us)
  else None.

(** *** Formatting ([strftime])

    The directives the templates use, in the C locale. *)

Definition digit (n : Z) : ascii := ascii_of_nat (48 + Z.to_nat n).

Fixpoint decimal_aux (fuel : nat) (n : Z) (acc : string) : string :=
  let acc := String (digit (n mod 10)) acc in
  match fuel with
  | O => acc
  | S fuel => if n / 10 =? 0 then acc else decimal_aux fuel (n / 10) acc
  end.

(** The decimal numeral of a non-negative integer; the number of its binary
    digits is fuel enough for the decimal ones. *)
Definition decimal (n : Z) : string :=
  decimal_aux (Z.to_nat (Z.log2 n)) n "".

Fixpoint zeros (k : nat) : string :=
  match k with O => "" | S k => String "0" (zeros k) end.

(** C's [%0wd] on a non-negative integer. *)
Definition zero_pad (width : nat) (n : Z) : string :=
  let s := decimal n in zeros (width - String.length s) +:+ s.

Definition day_name (wd : Z) : string :=
  nth (Z.to_nat wd)
    ["Monday"; "Tuesday"; "Wednesday"; "Thursday"; "Friday"; "Saturday";
     "Sunday"] "".

Definition month_name (m : Z) : string :=
  nth (Z.to_nat m)
    [""; "January"; "February"; "March"; "April"; "May"; "June"; "July";
     "August"; "September"; "October"; "November"; "December"] "".

(** One conversion; a character that is no directive the code uses is
    copied through with its percent sign. *)
Definition directive (c : ascii) (dt : datetime) : string :=
  if Ascii.eqb c "A" then day_name (weekday dt)
  else if Ascii.eqb c "d" then zero_pad 2 (day dt)
  else if Ascii.eqb c "B" then month_name (month dt)
  else if Ascii.eqb c "Y" then decimal (year dt)
  else if Ascii.eqb c "H" then zero_pad 2 (hour dt)
  else if Ascii.eqb c "M" then zero_pad 2 (minute dt)
  else String "%" (String c "").

(** [dt.strftime(fmt)]. *)
Fixpoint strftime (fmt : string) (dt : datetime) : string :=
  match fmt with
  | EmptyString => ""
  | String c rest =>
      if Ascii.eqb c "%" then
        match rest with
        | String d rest' => directive d dt +:+ strftime rest' dt
        | EmptyString => String c ""
        end
      else String c (strftime rest dt)
  end.

(** [format(dt, spec)] for a non-empty [spec] is [dt.strftime(spec)]
    ([datetime.__format__]). *)
Definition format_datetime (spec : string) (dt : datetime) : string :=
  strftime spec dt.

End Datetime.

Import Datetime.

(* ===================================================================== *)
(** ** Python values the code passes around *)
(* ===================================================================== *)

Module Py.

(** An exception, by the name of its class. *)
Inductive exn : Type := Exn (class_name : string).

Definition OverflowError : exn := Exn "OverflowError".
Definition KeyError : exn := Exn "KeyError".
Definition NotImplementedError : exn := Exn "NotImplementedError".

(** The values found in [**rrule_params]. *)
Inductive pyval : Type :=
| PyNone
| PyInt (z : Z)
| PyDatetime (d : datetime)
| PyInts (l : list Z).

(** [d.setdefault(k, v)], as the dictionary it leaves behind. *)
Definition setdefault (k : string) (v : pyval) (d : gmap string pyval)
  : gmap string pyval :=
  match d !! k with
  | Some _ => d
  | None => <[k := v]> d
  end.

(** [k in d]. *)
Definition contains (k : string) (d : gmap string pyval) : bool :=
  match d !! k with Some _ => true | None => false end.

(** [x or y] where [x] is [None] or an object that is always true
    (datetimes, dates and model instances define neither [__bool__] nor
    [__len__]). *)
Definition or_else {A : Type} (x : option A) (y : A) : A :=
  match x with Some a => a | None => y end.

Definition field_index (c : ascii) : nat := nat_of_ascii c - 48.

(** [str.format] on a format string whose replacement fields are one-digit
    positional indexes, the arguments being strings already. *)
Fixpoint format (fmt : string) (args : list string) : string :=
  match fmt with
  | EmptyString => ""
  | String c rest =>
      if Ascii.eqb c "{" then
        match rest with
        | String d (String c' rest') =>
            if Ascii.eqb c' "}"
            then nth (field_index d) args "" +:+ format rest' args
            else String c (format rest args)
        | _ => String c (format rest args)
        end
      else String c (format rest args)
  end.

End Py.

Import Py.

(* ===================================================================== *)
(** ** [dateutil.rrule], as the code calls it *)
(* ===================================================================== *)

Module RRule.

Definition YEARLY : Z := 0.
Definition MONTHLY : Z := 1.
Definition WEEKLY : Z := 2.
Definition DAILY : Z := 3.
Definition HOURLY : Z := 4.
Definition MINUTELY : Z := 5.
Definition SECONDLY : Z := 6.

(** What running [for ev in rrule.rrule(...)] observes of
    the library: the values it yields, in order, and the exception that ends
    the iteration when one does (a call that fails yields nothing). *)
Record iteration : Type := mkiteration {
  yielded : list datetime;
  raised : option exn
}.

(** The library is a collaborator of the code, not part of it: the model of
    the code takes it as a function of this type. *)
Definition rrule_impl : Type := datetime -> gmap string pyval -> iteration.

(** *** An executable instance for plain rules

    dateutil's behaviour on rules made of [freq], [interval], [count] and
    [until] only, with a frequency from [WEEKLY] to [SECONDLY]: the start
    loses its microseconds, then one value per [interval] units is yielded
    while the count is not used up, [until] is not passed and the year stays
    within [datetime.MAXYEAR].  A frequency outside the seven constants makes
    the iterator fail with [KeyError] on its first step.  Rules outside this
    fragment are left out ([None]). *)

Definition unit_us (freq : Z) : option Z :=
  if freq =? WEEKLY then Some (7 * US_PER_DAY)
  else if freq =? DAILY then Some US_PER_DAY
  else if freq =? HOURLY then Some (3600 * US_PER_SECOND)
  else if freq =? MINUTELY then Some (60 * US_PER_SECOND)
  else if freq =? SECONDLY then Some US_PER_SECOND
  else None.

Definition MAX_US : Z := to_us (mkdatetime 9999 12 31 23 59 59 0).

Definition plain_keys : gset string :=
  {[ "freq"; "interval"; "count"; "until" ]}.

Definition plain_interval (params : gmap string pyval) : option Z :=
  match params !! "interval" with
  | None => Some 1
  | Some (PyInt i) => if 1 <=? i then Some i else None
  | Some _ => None
  end.

(** The bound [count] puts on the number of values, if any. *)
Definition plain_count (params : gmap string pyval) : option (option Z) :=
  match params !! "count" with
  | None => Some None
  | Some (PyInt n) => if 1 <=? n then Some (Some n) else None
  | Some _ => None
  end.

(** The bound [until] puts on the number of values, if any. *)
Definition plain_until (params : gmap string pyval) (start : datetime)
    (step : Z) : option (option Z) :=
  match params !! "until" with
  | None => Some None
  | Some (PyDatetime u) =>
      if ltb u start then Some (Some 0)
      else Some (Some ((to_us u - to_us start) / step + 1))
  | Some _ => None
  end.

Definition bound (b : option Z) (n : Z) : Z :=
  match b with Some k => Z.min k n | None => n end.

Definition plain (dtstart : datetime) (params : gmap string pyval)
  : option iteration :=
  if negb (bool_decide (dom params ⊆ plain_keys)) then None
  else
    match params !! "freq" with
    | Some (PyInt freq) =>
        if (freq <? YEARLY) || (SECONDLY <? freq)
        then Some (mkiteration [] (Some KeyError))
        else
          unit ← unit_us freq;
          interval ← plain_interval params;
          let start := replace_microsecond dtstart 0 in
          let step := interval * unit in
          by_count ← plain_count params;
          by_until ← plain_until params start step;
          let n := bound by_count
                     (bound by_until ((MAX_US - to_us start) / step + 1)) in
          Some (mkiteration
                  (omap (fun k => add start (k * step)) (seqZ 0 n)) None)
    | _ => None
    end.

(** The instance: [plain] where it is defined.  On the other rules it stops
    at once with [NotImplementedError], which marks the edge of the instance
    and says nothing of dateutil. *)
Definition rrule_plain : rrule_impl :=
  fun dtstart params =>
    match plain dtstart params with
    | Some it => it
    | None => mkiteration [] (Some NotImplementedError)
    end.

End RRule.

Import RRule.

(* ===================================================================== *)
(** ** [fullcalendar/models.py] *)
(* ===================================================================== *)

Module Models.

(** [Event]: the fields of [Displayable] the code reads, and the category. *)
Record Event : Type := mkEvent {
  event_pk : Z;
  event_title : string;
  event_site : Z;
  event_category : option Z
}.

(** [Occurrence]; [description] is a nullable, blankable [CharField]. *)
Record Occurrence : Type := mkOccurrence {
  description : option string;
  start_time : datetime;
  end_time : datetime;
  event : Event
}.

(** [Occurrence.__lt__]. *)
Definition occurrence_lt (self other : Occurrence) : bool :=
  ltb (start_time self) (start_time other).

(** [Occurrence.title]: [if self.description] is false on [None] and on the
    empty string. *)
Definition title (self : Occurrence) : string :=
  match description self with
  | Some d =>
      if String.eqb d "" then event_title (event self)
      else format "{0} ({1})" [event_title (event self); d]
  | None => event_title (event self)
  end.

(** What a call may read of its surroundings: the occurrence table, the
    current site, and the two clocks. *)
Record Context : Type := mkContext {
  table : list Occurrence;
  current_site_id : Z;
  datetime_now : datetime;     (* datetime.now() *)
  timezone_now : datetime      (* django.utils.timezone.now() *)
}.

(** [Occurrence.in_past]. *)
Definition in_past (c : Context) (self : Occurrence) : bool :=
  gtb (end_time self) (datetime_now c).

(** *** Query sets

    A query set is immutable: [filter] returns a new one and leaves its
    receiver as it was.  It is kept as the table it reads and the conditions
    accumulated so far, and evaluated by [fetch]. *)

(** The keyword lookups the code writes. *)
Inductive Lookup : Type :=
| start_time__gte (d : datetime)
| start_time__lte (d : datetime)
| start_time__lt (d : datetime)
| end_time__gte (d : datetime)
| end_time__lte (d : datetime)
| end_time__gt (d : datetime)
| event__exact (e : Event)
| event__site__id__exact (s : Z).

Definition lookup_holds (l : Lookup) (o : Occurrence) : bool :=
  match l with
  | start_time__gte d => geb (start_time o) d
  | start_time__lte d => leb (start_time o) d
  | start_time__lt d => ltb (start_time o) d
  | end_time__gte d => geb (end_time o) d
  | end_time__lte d => leb (end_time o) d
  | end_time__gt d => gtb (end_time o) d
  | event__exact e => event_pk (event o) =? event_pk e
  | event__site__id__exact s => event_site (event o) =? s
  end.

(** [models.Q] of keyword lookups (a conjunction) and [q1 | q2]. *)
Inductive Q : Type :=
| Q_ (kwargs : list Lookup)
| Q_or (q1 q2 : Q).

Fixpoint q_holds (q : Q) (o : Occurrence) : bool :=
  match q with
  | Q_ kwargs => forallb (fun l => lookup_holds l o) kwargs
  | Q_or q1 q2 => q_holds q1 o || q_holds q2 o
  end.

Record QuerySet : Type := mkQuerySet {
  source : list Occurrence;
  conditions : list Q
}.

Definition all (db : list Occurrence) : QuerySet := mkQuerySet db [].

(** [qs.filter(q)]. *)
Definition filter_q (q : Q) (qs : QuerySet) : QuerySet :=
  mkQuerySet (source qs) (conditions qs ++ [q]).

(** [qs.filter] of keyword lookups. *)
Definition filter_kw (kwargs : list Lookup) (qs : QuerySet) : QuerySet :=
  filter_q (Q_ kwargs) qs.

Definition matches (qs : QuerySet) (o : Occurrence) : bool :=
  forallb (fun q => q_holds q o) (conditions qs).

(** [Meta.ordering = ('start_time', 'end_time')]. *)
Definition ordering_leb (a b : Occurrence) : bool :=
  match cmp (start_time a) (start_time b) with
  | Lt => true
  | Eq => leb (end_time a) (end_time b)
  | Gt => false
  end.

Definition ordering (a b : Occurrence) : Prop := Is_true (ordering_leb a b).

#[global] Instance ordering_dec a b : Decision (ordering a b) :=
  Is_true_dec (ordering_leb a b).

(** Evaluating a query set: the rows that meet every condition, in the
    model's ordering. *)
Definition fetch (qs : QuerySet) : list Occurrence :=
  merge_sort ordering (List.filter (matches qs) (source qs)).

(** *** Managers *)

Inductive Manager : Type :=
| objects         (* OccurrenceManager() *)
| site_related.   (* SiteRelatedOccurrenceManager() *)

(** [get_queryset]: everything, or what belongs to the current site. *)
Definition get_queryset (self : Manager) (c : Context) : QuerySet :=
  match self with
  | objects => all (table c)
  | site_related =>
      filter_kw [event__site__id__exact (current_site_id c)] (all (table c))
  end.

(** [OccurrenceManager.upcoming].  The statement [qs.filter(start_time__lte=end)]
    builds a query set and drops it. *)
Definition upcoming (self : Manager) (c : Context)
    (start end_ : option datetime) : QuerySet :=
  let start := or_else start (timezone_now c) in
  let qs := filter_kw [start_time__gte start] (get_queryset self c) in
  let _ :=
    match end_ with
    | Some e => Some (filter_kw [start_time__lte e] qs)
    | None => None
    end in
  qs.

(** The [dt] argument of [daily_occurrences]: a date or a datetime. *)
Inductive Day : Type :=
| a_date (d : date)
| a_datetime (dt : datetime).

Definition year_of (x : Day) : Z :=
  match x with a_date d => d_year d | a_datetime dt => year dt end.
Definition month_of (x : Day) : Z :=
  match x with a_date d => d_month d | a_datetime dt => month dt end.
Definition day_of (x : Day) : Z :=
  match x with a_date d => d_day d | a_datetime dt => day dt end.

(** [OccurrenceManager.daily_occurrences]. *)
Definition daily_occurrences (self : Manager) (c : Context)
    (dt : option Day) (ev : option Event) : QuerySet :=
  let dt := or_else dt (a_datetime (datetime_now c)) in
  let start := datetime_ymd (year_of dt) (month_of dt) (day_of dt) in
  let end_ := replace_hms start 23 59 59 in
  let qs :=
    filter_q
      (Q_or
         (Q_or (Q_ [start_time__gte start; start_time__lte end_])
               (Q_ [end_time__gte start; end_time__lte end_]))
         (Q_ [start_time__lt start; end_time__gt end_]))
      (get_queryset self c) in
  match ev with
  | Some e => filter_kw [event__exact e] qs
  | None => qs
  end.

(** *** [Event] *)

(** [self.occurrence_set]: the related manager is the default one, narrowed
    to the event. *)
Definition occurrence_set (self : Event) (c : Context) : QuerySet :=
  filter_kw [event__exact self] (get_queryset objects c).

(** [self.occurrence_set.create(start_time=s, end_time=e)]: one more row. *)
Definition create (self : Event) (s e : datetime) (db : list Occurrence)
  : list Occurrence :=
  db ++ [mkOccurrence None s e self].

(** The body of the loop of [add_occurrences], run over what the iterator
    yields: rows already created stay when a later step fails. *)
Fixpoint create_each (self : Event) (delta : timedelta) (evs : list datetime)
    (db : list Occurrence) : list Occurrence * option exn :=
  match evs with
  | [] => (db, None)
  | ev :: rest =>
      match add ev delta with
      | Some e => create_each self delta rest (create self ev e db)
      | None => (db, Some OverflowError)
      end
  end.

(** A row as the loop makes it from a yielded value. *)
Definition made (self : Event) (delta : timedelta) (o : Occurrence) : Prop :=
  add (start_time o) delta = Some (end_time o)
  /\ event o = self /\ description o = None.

Section Library.

Variable rrule : rrule_impl.

(** [Event.add_occurrences]: the table it leaves, and the exception it
    raises if it does. *)
Definition add_occurrences (self : Event) (start_time end_time : datetime)
    (rrule_params : gmap string pyval) (db : list Occurrence)
  : list Occurrence * option exn :=
  let rrule_params := setdefault "freq" (PyInt DAILY) rrule_params in
  if negb (contains "count" rrule_params)
     && negb (contains "until" rrule_params)
  then (create self start_time end_time db, None)
  else
    let delta := sub end_time start_time in
    let it := rrule start_time rrule_params in
    match create_each self delta (yielded it) db with
    | (db', Some e) => (db', Some e)
    | (db', None) => (db', raised it)
    end.

End Library.

(** [Event.upcoming_occurrences]. *)
Definition upcoming_occurrences (self : Event) (c : Context) : QuerySet :=
  filter_kw [start_time__gte (datetime_now c)] (occurrence_set self c).

(** [Event.next_occurrence]: [upcoming and upcoming[0] or None]. *)
Definition next_occurrence (self : Event) (c : Context) : option Occurrence :=
  head (fetch (upcoming_occurrences self c)).

(** [Event.daily_occurrences]. *)
Definition event_daily_occurrences (self : Event) (c : Context)
    (dt : option Day) : QuerySet :=
  daily_occurrences objects c dt (Some self).

End Models.

Import Models.

(* ===================================================================== *)
(** ** [fullcalendar/templatetags/fullcalendar.py] *)
(* ===================================================================== *)

Module TemplateTags.

Section Timezone.

(** [django.utils.timezone.localtime]: the value in the current time zone. *)
Variable localtime : datetime -> datetime.

(** [occurrence_duration]. *)
Definition occurrence_duration (occurrence : Occurrence) : string :=
  let start := localtime (start_time occurrence) in
  let end_ := localtime (end_time occurrence) in
  let result := strftime "%A, %d %B %Y %H:%M" start in
  if (day start =? day end_) && (month start =? month end_)
     && (year start =? year end_)
  then result +:+ " - " +:+ format_datetime "%H:%M" end_
  else result +:+ " - " +:+ format_datetime "%A, %d %B %Y %H:%M" end_.

End Timezone.

End TemplateTags.

Import TemplateTags.

(* ===================================================================== *)
(** ** The vocabulary of the specification *)
(* ===================================================================== *)

Module Spec.

(** The window of a calendar day: from its midnight to its 23:59:59. *)
Definition midnight (x : Day) : datetime :=
  mkdatetime (year_of x) (month_of x) (day_of x) 0 0 0 0.
Definition last_second (x : Day) : datetime :=
  mkdatetime (year_of x) (month_of x) (day_of x) 23 59 59 0.

(** A time lies within the window of a day. *)
Definition within (t : datetime) (x : Day) : Prop :=
  le (midnight x) t /\ le t (last_second x).

(** An occurrence spans the whole window of a day. *)
Definition spans (o : Occurrence) (x : Day) : Prop :=
  lt (start_time o) (midnight x) /\ lt (last_second x) (end_time o).

(** An occurrence is owned by the event of the filter, when there is one. *)
Definition owned_by (ev : option Event) (o : Occurrence) : Prop :=
  match ev with
  | Some e => event_pk (event o) = event_pk e
  | None => True
  end.

(** The outcome a rule with [count = N] is to have: nothing raised, [N] rows
    added, each ending [delta] after its start, the starts strictly
    increasing. *)
Definition counted (N : Z) (delta : timedelta) (db : list Occurrence)
    (outcome : list Occurrence * option exn) : Prop :=
  exists created,
    outcome = (db ++ created, None)
    /\ Z.of_nat (length created) = N
    /\ Forall (fun o => add (start_time o) delta = Some (end_time o)) created
    /\ Sorted lt (map start_time created).

(** [N] occurrences, [step] microseconds apart from [s] on, each [delta]
    long, lie between the first day and the last second of year 9999. *)
Definition fits (s : datetime) (delta : timedelta) (N step : Z) : Prop :=
  US_PER_DAY <= to_us s + delta
  /\ to_us s + (N - 1) * step + Z.max 0 delta <= MAX_US.

(** Two digits: ["DD"], ["HH"], ["MM"]. *)
Definition two_digits (n : Z) : string :=
  String (digit (n / 10)) (String (digit (n mod 10)) "").

(** Four digits: ["YYYY"]. *)
Definition four_digits (n : Z) : string :=
  String (digit (n / 1000)) (String (digit (n / 100 mod 10))
    (String (digit (n / 10 mod 10)) (String (digit (n mod 10)) ""))).

(** ["HH:MM"]. *)
Definition clock_form (dt : datetime) : string :=
  two_digits (hour dt) +:+ ":" +:+ two_digits (minute dt).

(** ["Weekday, DD Month YYYY HH:MM"], the year written in decimal. *)
Definition long_form (dt : datetime) : string :=
  day_name (weekday dt) +:+ ", " +:+ two_digits (day dt) +:+ " "
  +:+ month_name (month dt) +:+ " " +:+ decimal (year dt) +:+ " "
  +:+ clock_form dt.

(** Same day, month and year. *)
Definition same_calendar_day (a b : datetime) : Prop :=
  day a = day b /\ month a = month b /\ year a = year b.

End Spec.

Import Spec.

(* ===================================================================== *)
(** ** Concrete data for the examples *)
(* ===================================================================== *)

Module Sample.

Definition borrel : Event := mkEvent 1 "Borrel" 1 None.
Definition congres : Event := mkEvent 2 "Congres" 2 (Some 1).

Definition jan01_0900 : datetime := mkdatetime 2024 1 1 9 0 0 0.
Definition jan01_1000 : datetime := mkdatetime 2024 1 1 10 0 0 0.
Definition feb01 : datetime := mkdatetime 2024 2 1 0 0 0 0.

(** [{count: 3}]. *)
Definition count3 : gmap string pyval := {[ "count" := PyInt 3 ]}.

(** [{count: 3, until: 2024-02-01}], the rule of the specification's example. *)
Definition count3_until : gmap string pyval :=
  <[ "count" := PyInt 3 ]> {[ "until" := PyDatetime feb01 ]}.

(** A rule with a frequency, an interval and a filter but no bound. *)
Definition weekly_unbounded : gmap string pyval :=
  <[ "freq" := PyInt WEEKLY ]>
    (<[ "interval" := PyInt 2 ]> {[ "byweekday" := PyInts [0; 2] ]}).

(** A frequency that is none of the seven constants. *)
Definition freq99 : gmap string pyval := {[ "freq" := PyInt 99 ]}.
Definition freq99_count : gmap string pyval :=
  <[ "freq" := PyInt 99 ]> {[ "count" := PyInt 2 ]}.

Definition three_days : list datetime :=
  [ jan01_0900; mkdatetime 2024 1 2 9 0 0 0; mkdatetime 2024 1 3 9 0 0 0 ].

Definition mar01 : datetime := mkdatetime 2024 3 1 0 0 0 0.
Definition mar10 : datetime := mkdatetime 2024 3 10 0 0 0 0.
Definition early : Occurrence :=
  mkOccurrence None (mkdatetime 2024 3 5 20 0 0 0)
    (mkdatetime 2024 3 5 22 0 0 0) borrel.
Definition late : Occurrence :=
  mkOccurrence None (mkdatetime 2024 3 20 20 0 0 0)
    (mkdatetime 2024 3 20 22 0 0 0) borrel.

Definition march : Context := mkContext [late; early] 1 mar01 mar01.

Definition mar15 : Day := a_date (mkdate 2024 3 15).
Definition mar15_1742 : datetime := mkdatetime 2024 3 15 17 42 7 0.

(** The three occurrences of the specification's example for [daily]. *)
Definition spanning : Occurrence :=
  mkOccurrence None mar10 (mkdatetime 2024 3 20 0 0 0 0) congres.
Definition morning : Occurrence :=
  mkOccurrence (Some "Utrecht") (mkdatetime 2024 3 15 8 0 0 0)
    (mkdatetime 2024 3 15 9 0 0 0) borrel.
Definition next_day : Occurrence :=
  mkOccurrence (Some "") (mkdatetime 2024 3 16 0 0 0 0)
    (mkdatetime 2024 3 17 0 0 0 0) borrel.

Definition ides : Context :=
  mkContext [next_day; morning; spanning] 1 mar15_1742 mar15_1742.

(** A time zone one hour ahead, for values within a day's first 23 hours. *)
Definition plus_one_hour (dt : datetime) : datetime :=
  match add dt (timedelta_of 0 3600 0) with Some r => r | None => dt end.

Definition overnight : Occurrence :=
  mkOccurrence None (mkdatetime 2024 3 15 21 30 0 0)
    (mkdatetime 2024 3 16 1 5 0 0) borrel.

End Sample.

Import Sample.

(* ===================================================================== *)
(** ** Further vocabulary for the properties *)
(* ===================================================================== *)

Module Terms.

(** Three comparisons, of [a] with [b], of [b] with [c] and of [a] with
    [c], fit together the way comparisons in an order do. *)
Definition coherent (ab bc ac : comparison) : Prop :=
  (ab = Eq -> ac = bc) /\ (bc = Eq -> ac = ab)
  /\ (ab = Lt -> bc = Lt -> ac = Lt) /\ (ab = Gt -> bc = Gt -> ac = Gt).

(** The comparison behind [Meta.ordering]: starts first, then ends. *)
Definition ordering_cmp (a b : Occurrence) : comparison :=
  lex (cmp (start_time a) (start_time b)) (cmp (end_time a) (end_time b)).

(** A time in the last second of its day, past 23:59:59 sharp. *)
Definition after_last_second (t : datetime) : Prop :=
  hour t = 23 /\ minute t = 59 /\ second t = 59 /\ 0 < microsecond t.

(** Two datetimes on the same calendar day. *)
Definition same_date (a b : datetime) : Prop :=
  year a = year b /\ month a = month b /\ day a = day b.

(** The occurrence is one of the event. *)
Definition of_event (e : Event) (o : Occurrence) : Prop :=
  event_pk (event o) = event_pk e.

End Terms.

Import Terms.

(* ===================================================================== *)
(** ** [events_site_legend] *)
(* ===================================================================== *)

Module Legend.

(** A row of [django.contrib.sites.models.Site], as far as the tag reads
    it. *)
Record Site : Type := mkSite { site_id : Z; site_name : string }.

(** A value of [FULLCALENDAR_SITE_COLORS]: a [str], or a sequence (a tuple
    or a list; under Python 2 also a [unicode], taken character by
    character). *)
Inductive Color : Type :=
| color_str (c : string)
| color_seq (cs : list string).

(** The dictionary [sites]: the name under each id, a later row replacing
    an earlier one with the same id. *)
Definition site_names (all_sites : list Site) : gmap Z string :=
  foldl (fun sites site => <[site_id site := site_name site]> sites)
    ∅ all_sites.

(** [data] after the three assignments. *)
Definition three (background text border : string) : gmap string string :=
  <["borderColor" := border]>
    (<["textColor" := text]> (<["backgroundColor" := background]> ∅)).

(** The [data] built for one colour. *)
Definition legend_data (color : Color) : gmap string string :=
  match color with
  | color_str c => three c "white" c
  | color_seq cs =>
      if (length cs =? 2)%nat
      then three (nth 0 cs "") (nth 1 cs "") (nth 0 cs "")
      else if (2 <? length cs)%nat
      then three (nth 0 cs "") (nth 1 cs "") (nth 2 cs "")
      else ∅
  end.

(** The loop over [FULLCALENDAR_SITE_COLORS.items()], in the order the
    dictionary gives them; [sites[site]] raises [KeyError] on an id that is
    no site's. *)
Fixpoint legend_loop (sites : gmap Z string) (items : list (Z * Color))
    (legend : gmap string (gmap string string))
  : exn + gmap string (gmap string string) :=
  match items with
  | [] => inr legend
  | (site, color) :: rest =>
      let data := legend_data color in
      match sites !! site with
      | Some name => legend_loop sites rest (<[name := data]> legend)
      | None => inl KeyError
      end
  end.

(** The context the tag returns: [{'legend': ...}]. *)
Record LegendContext : Type := mkLegendContext {
  legend : gmap string (gmap string string)
}.

(** [events_site_legend], given the rows of [Site.objects.all()] and the
    items of the setting [FULLCALENDAR_SITE_COLORS]. *)
Definition events_site_legend (all_sites : list Site)
    (FULLCALENDAR_SITE_COLORS : list (Z * Color)) : exn + LegendContext :=
  match legend_loop (site_names all_sites) FULLCALENDAR_SITE_COLORS ∅ with
  | inl e => inl e
  | inr l => inr (mkLegendContext l)
  end.

(** The entry a name ends with: that of the last item whose site bears the
    name, or else the one it had. *)
Fixpoint entry_of (sites : gmap Z string) (name : string)
    (items : list (Z * Color)) (had : option (gmap string string))
  : option (gmap string string) :=
  match items with
  | [] => had
  | (site, color) :: rest =>
      entry_of sites name rest
        (if decide (sites !! site = Some name)
         then Some (legend_data color) else had)
  end.

(** The three keys of an entry. *)
Definition colour_keys : gset string :=
  {[ "backgroundColor"; "textColor"; "borderColor" ]}.

End Legend.

Import Legend.

(* ===================================================================== *)
(** ** The agenda tags of [fullcalendar/templatetags/fullcalendar.py] *)
(* ===================================================================== *)

Module Agenda.

Definition TypeError : exn := Exn "TypeError".
Definition ValueError : exn := Exn "ValueError".
Definition AssertionError : exn := Exn "AssertionError".

(** A keyword argument of a tag, as the template engine hands it over. *)
Inductive argval : Type :=
| arg_int (n : Z)
| arg_str (s : string)
| arg_none.

(** A query set, with the upper bound of a slice [qs[:stop]] when one was
    taken. *)
Record Sliced : Type := mkSliced {
  base : QuerySet;
  stop : option Z
}.

(** [qs[:k]]: Django refuses a negative bound. *)
Definition slice_to (qs : QuerySet) (k : Z) : exn + Sliced :=
  if k <? 0 then inl AssertionError else inr (mkSliced qs (Some k)).

(** The rows the template gets when it runs through the result. *)
Definition rows (q : Sliced) : list Occurrence :=
  match stop q with
  | Some k => take (Z.to_nat k) (fetch (base q))
  | None => fetch (base q)
  end.

(** What [show_agenda] and [show_site_agenda] return. *)
Record AgendaContext : Type := mkAgendaContext {
  occurrences : Sliced;
  all_sites : option bool
}.

Section Int.

(** [int(s)] for a [str]: the integer written, or [None] where Python
    raises [ValueError]. *)
Variable int_of_str : string -> option Z.

(** [int(v)]. *)
Definition py_int (v : argval) : exn + Z :=
  match v with
  | arg_int n => inr n
  | arg_str s =>
      match int_of_str s with
      | Some n => inr n
      | None => inl ValueError
      end
  | arg_none => inl TypeError
  end.

(** The lines the four tags share:
    [if 'limit' in kwargs: qs = qs[:int(kwargs['limit'])]]. *)
Definition limited (qs : QuerySet) (kwargs : gmap string argval)
  : exn + Sliced :=
  match kwargs !! "limit" with
  | Some v =>
      match py_int v with
      | inr k => slice_to qs k
      | inl e => inl e
      end
  | None => inr (mkSliced qs None)
  end.

(** [get_agenda]. *)
Definition get_agenda (c : Context) (kwargs : gmap string argval)
  : exn + Sliced :=
  limited (upcoming objects c None None) kwargs.

(** [get_site_agenda]. *)
Definition get_site_agenda (c : Context) (kwargs : gmap string argval)
  : exn + Sliced :=
  limited (upcoming site_related c None None) kwargs.

(** [show_agenda]. *)
Definition show_agenda (c : Context) (kwargs : gmap string argval)
  : exn + AgendaContext :=
  match limited (upcoming objects c None None) kwargs with
  | inr qs => inr (mkAgendaContext qs (Some true))
  | inl e => inl e
  end.

(** [show_site_agenda]. *)
Definition show_site_agenda (c : Context) (kwargs : gmap string argval)
  : exn + AgendaContext :=
  match limited (upcoming site_related c None None) kwargs with
  | inr qs => inr (mkAgendaContext qs None)
  | inl e => inl e
  end.

End Int.

End Agenda.

Import Agenda.

(* ===================================================================== *)
(** ** [create_event] *)
(* ===================================================================== *)

Module Creation.

(** The [event_category] argument: a [str], or an [EventCategory] object
    (kept as its key) or [None]. *)
Inductive CategoryArg : Type :=
| category_name (name : string)
| category_object (pk : option Z).

(** [dt.replace(minute=0, second=0, microsecond=0)]. *)
Definition replace_minute_second_microsecond (dt : datetime) : datetime :=
  mkdatetime (year dt) (month dt) (day dt) (hour dt) 0 0 0.

Section Collaborators.

(** The setting [fullcalendar.conf.settings.DEFAULT_OCCURRENCE_DURATION]. *)
Variable DEFAULT_OCCURRENCE_DURATION : timedelta.

(** [EventCategory.objects.get_or_create(name=...)]: the key of the category
    found or made, or the exception raised. *)
Variable get_or_create : string -> exn + Z.

(** [Event.objects.create(title=..., content=..., event_category=...)]: the
    event made, or the exception raised. *)
Variable objects_create : string -> string -> option Z -> exn + Event.

Variable rrule : rrule_impl.

(** The first statement: a name is looked up or made a category of. *)
Definition resolve_category (event_category : CategoryArg)
  : exn + option Z :=
  match event_category with
  | category_name name =>
      match get_or_create name with
      | inr pk => inr (Some pk)
      | inl e => inl e
      end
  | category_object pk => inr pk
  end.

(** [create_event]: the occurrence table it leaves, and the event it
    returns or the exception it raises. *)
Definition create_event (title : string) (event_category : CategoryArg)
    (description : string) (start_time end_time : option datetime)
    (rrule_params : gmap string pyval) (c : Context)
  : list Occurrence * (exn + Event) :=
  match resolve_category event_category with
  | inl e => (table c, inl e)
  | inr event_category =>
      match objects_create title description event_category with
      | inl e => (table c, inl e)
      | inr event =>
          let start_time :=
            or_else start_time
              (replace_minute_second_microsecond (datetime_now c)) in
          let end_time :=
            match end_time with
            | Some e => Some e
            | None => add start_time DEFAULT_OCCURRENCE_DURATION
            end in
          match end_time with
          | None => (table c, inl OverflowError)
          | Some end_time =>
              match add_occurrences rrule event start_time end_time
                      rrule_params (table c) with
              | (db, Some e) => (db, inl e)
              | (db, None) => (db, inr event)
              end
          end
      end
  end.

End Collaborators.

End Creation.

Import Creation.

(* ===================================================================== *)
(** ** Further data for the examples *)
(* ===================================================================== *)

Module Sample2.

(** An occurrence inside the last second of 2024-03-15. *)
Definition flash : Occurrence :=
  mkOccurrence None (mkdatetime 2024 3 15 23 59 59 200000)
    (mkdatetime 2024 3 15 23 59 59 800000) borrel.

Definition with_flash : Context :=
  mkContext [flash; morning] 1 mar15_1742 mar15_1742.

Definition mar15_0830 : datetime := mkdatetime 2024 3 15 8 30 0 0.

(** A library that yields the start and then fails. *)
Definition rrule_broken : rrule_impl :=
  fun dtstart _ => mkiteration [dtstart] (Some (Exn "ValueError")).

(** The last two days of year 9999, and a rule of two daily values. *)
Definition dec30_noon : datetime := mkdatetime 9999 12 30 12 0 0 0.
Definition dec31_1100 : datetime := mkdatetime 9999 12 31 11 0 0 0.
Definition dec31_noon : datetime := mkdatetime 9999 12 31 12 0 0 0.
Definition count2 : gmap string pyval := {[ "count" := PyInt 2 ]}.

(** An hour from noon on each of the two days, and a rule of five daily
    values. *)
Definition dec30_1300 : datetime := mkdatetime 9999 12 30 13 0 0 0.
Definition dec31_1300 : datetime := mkdatetime 9999 12 31 13 0 0 0.
Definition count5 : gmap string pyval := {[ "count" := PyInt 5 ]}.

End Sample2.

Import Sample2.

Module SampleLegend.

Definition two_sites : list Site :=
  [mkSite 1 "Landelijk"; mkSite 2 "Utrecht"].

Definition colours : list (Z * Color) :=
  [(1, color_str "#ff0000"); (2, color_seq ["blue"; "black"])].

(** The legend of these two. *)
Definition legend_of_two : LegendContext :=
  mkLegendContext
    (<["Utrecht" := three "blue" "black" "blue"]>
       {["Landelijk" := three "#ff0000" "white" "#ff0000"]}).

Definition colours_with_stranger : list (Z * Color) :=
  [(1, color_str "#ff0000"); (7, color_str "green")].

End SampleLegend.

Import SampleLegend.

Module SampleAgenda.

(** [int] on the strings of digits of the examples. *)
Definition int_of_small (s : string) : option Z :=
  if String.eqb s "1" then Some 1
  else if String.eqb s "2" then Some 2
  else None.

Definition limit1 : gmap string argval := {[ "limit" := arg_str "1" ]}.
Definition limit_minus : gmap string argval := {[ "limit" := arg_int (-1) ]}.

End SampleAgenda.

Import SampleAgenda.

Module SampleCreation.

Definition one_hour : timedelta := timedelta_of 0 3600 0.

(** A database in which every category has key 5 and every new event key
    9, on site 1. *)
Definition category5 (name : string) : exn + Z := inr 5.
Definition event9 (title content : string) (category : option Z)
  : exn + Event :=
  inr (mkEvent 9 title 1 category).

End SampleCreation.

Import SampleCreation.

(* ===================================================================== *)
(** ** Properties *)
(* ===================================================================== *)

(** *** The order on datetimes *)

Section Order.

Lemma lex_Eq c1 c2 : lex c1 c2 = Eq <-> c1 = Eq /\ c2 = Eq.
Proof. destruct c1, c2; simpl; intuition congruence. Qed.

Lemma lex_CompOpp c1 c2 : lex (CompOpp c1) (CompOpp c2) = CompOpp (lex c1 c2).
Proof. now destruct c1. Qed.

Lemma cmp_refl a : cmp a a = Eq.
Proof. unfold cmp. now rewrite !Z.compare_refl. Qed.

Lemma cmp_eq a b : cmp a b = Eq -> a = b.
Proof.
  unfold cmp. rewrite !lex_Eq, !Z.compare_eq_iff.
  destruct a, b; simpl. intros (-> & -> & -> & -> & -> & -> & ->).
  reflexivity.
Qed.

Lemma cmp_antisym a b : cmp b a = CompOpp (cmp a b).
Proof.
  unfold cmp. rewrite <- !lex_CompOpp, <- !Z.compare_antisym. reflexivity.
Qed.

Lemma ltb_lt a b : ltb a b = true <-> lt a b.
Proof. unfold ltb, lt. destruct (cmp a b); intuition congruence. Qed.

Lemma leb_le a b : leb a b = true <-> le a b.
Proof. unfold leb, le. destruct (cmp a b); intuition congruence. Qed.

Lemma gtb_lt a b : gtb a b = true <-> lt b a.
Proof. apply ltb_lt. Qed.

Lemma geb_le a b : geb a b = true <-> le b a.
Proof. apply leb_le. Qed.

Lemma le_refl a : le a a.
Proof. unfold le. now rewrite cmp_refl. Qed.

Lemma lt_not_le a b : lt a b -> ~ le b a.
Proof.
  unfold lt, le. intros H. rewrite (cmp_antisym a b), H. simpl. tauto.
Qed.

Lemma le_lt_or_eq a b : le a b <-> lt a b \/ a = b.
Proof.
  unfold le, lt. split.
  - destruct (cmp a b) eqn:E; [right; now apply cmp_eq | now left | tauto].
  - intros [-> | ->]; [discriminate | now rewrite cmp_refl].
Qed.

End Order.

(** *** The calendar *)

Section Calendar.

Lemma all_from_spec f k : forall z i,
  all_from f k z = true -> z <= i < z + Z.of_nat k -> f i = true.
Proof.
  induction k as [|k IH]; intros z i H Hi; [lia |].
  simpl in H. apply andb_true_iff in H as [Hz Hrest].
  destruct (Z.eq_dec i z) as [-> | Hne]; [exact Hz |].
  apply (IH (z + 1)); [exact Hrest | lia].
Qed.

Lemma cycle_walk_spec k : forall n i,
  cycle_walk k n (ord2ymd (n - 1)) = true ->
  n <= i < n + Z.of_nat k ->
  date_cmp (ord2ymd (i - 1)) (ord2ymd i) = Lt
  /\ ymd2ord_of (ord2ymd i) = i.
Proof.
  induction k as [|k IH]; intros n i H Hi; [lia |].
  simpl in H.
  destruct (date_cmp (ord2ymd (n - 1)) (ord2ymd n)) eqn:Hcmp;
    try discriminate H.
  apply andb_true_iff in H as [Hback Hrest]. apply Z.eqb_eq in Hback.
  destruct (Z.eq_dec i n) as [-> | Hne]; [now split |].
  apply (IH (n + 1)); [| lia].
  now replace (n + 1 - 1) with n by lia.
Qed.

(** One day after the other, over the 146097 days of a cycle. *)
Lemma cycle_checked : cycle_walk (Z.to_nat DI400Y) 1 (ord2ymd (1 - 1)) = true.
Proof. vm_compute. reflexivity. Qed.

Lemma cycle_day r :
  0 <= r < DI400Y ->
  (r < DI400Y - 1 -> date_cmp (ord2ymd (r + 1)) (ord2ymd (r + 2)) = Lt)
  /\ ymd2ord_of (ord2ymd (r + 1)) = r + 1.
Proof.
  intros Hr. split.
  - intros Hin.
    destruct (cycle_walk_spec _ 1 (r + 2) cycle_checked) as [H _];
      [unfold DI400Y in *; lia |].
    now replace (r + 2 - 1) with (r + 1) in H by lia.
  - apply (cycle_walk_spec _ 1 (r + 1) cycle_checked).
    unfold DI400Y in *. lia.
Qed.

(** A day's date is the date of its place in the cycle, moved by 400 years
    per cycle. *)
Lemma ord2ymd_cycle n :
  ord2ymd n
  = shift_years (400 * ((n - 1) / DI400Y)) (ord2ymd ((n - 1) mod DI400Y + 1)).
Proof.
  unfold ord2ymd. cbv zeta.
  replace ((n - 1) mod DI400Y + 1 - 1) with ((n - 1) mod DI400Y) by lia.
  rewrite Z.mod_mod by discriminate.
  rewrite (Z.div_small ((n - 1) mod DI400Y) DI400Y)
    by (apply Z.mod_pos_bound; reflexivity).
  generalize ((n - 1) mod DI400Y), ((n - 1) / DI400Y). intros r q.
  repeat match goal with
  | |- context [if ?b then _ else _] => destruct b
  end; unfold shift_years; f_equal; try f_equal; ring.
Qed.

Lemma date_cmp_shift k a b :
  date_cmp (shift_years k a) (shift_years k b) = date_cmp a b.
Proof.
  destruct a as [[y1 m1] d1], b as [[y2 m2] d2]. simpl.
  now rewrite (Z.add_comm y1), (Z.add_comm y2), Z.add_compare_mono_l.
Qed.

Lemma date_cmp_trans a b c :
  date_cmp a b = Lt -> date_cmp b c = Lt -> date_cmp a c = Lt.
Proof.
  destruct a as [[y1 m1] d1], b as [[y2 m2] d2], c as [[y3 m3] d3].
  simpl.
  destruct (Z.compare_spec y1 y2), (Z.compare_spec y2 y3),
    (Z.compare_spec m1 m2), (Z.compare_spec m2 m3),
    (Z.compare_spec d1 d2), (Z.compare_spec d2 d3);
    simpl; try discriminate; intros _ _;
    repeat match goal with
    | |- context [?x ?= ?y] => destruct (Z.compare_spec x y)
    end; simpl; try reflexivity; lia.
Qed.

Lemma ord2ymd_succ n : date_cmp (ord2ymd n) (ord2ymd (n + 1)) = Lt.
Proof.
  rewrite (ord2ymd_cycle n), (ord2ymd_cycle (n + 1)).
  replace (n + 1 - 1) with n by lia.
  assert (Hr : 0 <= (n - 1) mod DI400Y < DI400Y)
    by (apply Z.mod_pos_bound; reflexivity).
  destruct (Z.eq_dec ((n - 1) mod DI400Y) (DI400Y - 1)) as [Hlast | Hin].
  - assert (n mod DI400Y = 0 /\ n / DI400Y = (n - 1) / DI400Y + 1) as [-> ->].
    { unfold DI400Y in *. Z.to_euclidean_division_equations. lia. }
    rewrite Hlast.
    replace (400 * ((n - 1) / DI400Y + 1))
      with (400 * ((n - 1) / DI400Y) + 400) by ring.
    generalize (400 * ((n - 1) / DI400Y)). intros k.
    replace (ord2ymd (DI400Y - 1 + 1)) with (400, 12, 31)
      by (vm_compute; reflexivity).
    replace (ord2ymd (0 + 1)) with (1, 1, 1) by (vm_compute; reflexivity).
    simpl.
    destruct (Z.compare_spec (400 + k) (1 + (k + 400)));
      simpl; try reflexivity; lia.
  - assert (n mod DI400Y = (n - 1) mod DI400Y + 1
            /\ n / DI400Y = (n - 1) / DI400Y) as [-> ->].
    { unfold DI400Y in *. Z.to_euclidean_division_equations. lia. }
    rewrite date_cmp_shift.
    replace ((n - 1) mod DI400Y + 1 + 1) with ((n - 1) mod DI400Y + 2) by lia.
    apply cycle_day; lia.
Qed.

(** Later days have later dates. *)
Lemma ord2ymd_increasing n1 n2 :
  n1 < n2 -> date_cmp (ord2ymd n1) (ord2ymd n2) = Lt.
Proof.
  intros Hlt.
  replace n2 with (n1 + 1 + Z.of_nat (Z.to_nat (n2 - n1 - 1))) by lia.
  induction (Z.to_nat (n2 - n1 - 1)) as [|k IH].
  - rewrite Z.add_0_r. apply ord2ymd_succ.
  - eapply date_cmp_trans; [exact IH |].
    replace (n1 + 1 + Z.of_nat (S k)) with (n1 + 1 + Z.of_nat k + 1) by lia.
    apply ord2ymd_succ.
Qed.

Lemma is_leap_shift y q : is_leap (y + 400 * q) = is_leap y.
Proof.
  unfold is_leap.
  replace ((y + 400 * q) mod 4) with (y mod 4)
    by (Z.to_euclidean_division_equations; lia).
  replace ((y + 400 * q) mod 100) with (y mod 100)
    by (Z.to_euclidean_division_equations; lia).
  replace ((y + 400 * q) mod 400) with (y mod 400)
    by (Z.to_euclidean_division_equations; lia).
  reflexivity.
Qed.

Lemma ymd2ord_shift q a :
  ymd2ord_of (shift_years (400 * q) a) = ymd2ord_of a + q * DI400Y.
Proof.
  destruct a as [[y m] d].
  unfold ymd2ord_of, shift_years, ymd2ord, days_before_month,
    days_before_year.
  rewrite is_leap_shift. unfold DI400Y. cbv zeta.
  generalize (DAYS_BEFORE_MONTH m + (if (2 <? m) && is_leap y then 1 else 0)).
  intros k. Z.to_euclidean_division_equations. lia.
Qed.

(** The ordinal of the date of a day is that day. *)
Lemma ymd2ord_ord2ymd n : ymd2ord_of (ord2ymd n) = n.
Proof.
  rewrite ord2ymd_cycle, ymd2ord_shift.
  assert (Hr : 0 <= (n - 1) mod DI400Y < DI400Y)
    by (apply Z.mod_pos_bound; reflexivity).
  destruct (cycle_day _ Hr) as [_ ->].
  pose proof (Z.div_mod (n - 1) DI400Y ltac:(discriminate)). lia.
Qed.

(** Splitting the microseconds of a day into clock fields keeps the order. *)
Lemma clock_fields_increasing r1 r2 :
  0 <= r1 -> r1 < r2 ->
  lex (r1 / US_PER_SECOND / 3600 ?= r2 / US_PER_SECOND / 3600)
   (lex ((r1 / US_PER_SECOND) mod 3600 / 60
         ?= (r2 / US_PER_SECOND) mod 3600 / 60)
    (lex (((r1 / US_PER_SECOND) mod 3600) mod 60
          ?= ((r2 / US_PER_SECOND) mod 3600) mod 60)
         (r1 mod US_PER_SECOND ?= r2 mod US_PER_SECOND))) = Lt.
Proof.
  intros H0 Hlt. unfold US_PER_SECOND.
  assert (Hs : r1 / 1000000 <= r2 / 1000000)
    by (apply Z.div_le_mono; lia).
  pose proof (Z.div_mod r1 1000000 ltac:(lia)) as E1.
  pose proof (Z.div_mod r2 1000000 ltac:(lia)) as E2.
  pose proof (Z.mod_pos_bound r1 1000000 ltac:(lia)) as B1.
  pose proof (Z.mod_pos_bound r2 1000000 ltac:(lia)) as B2.
  generalize dependent (r1 mod 1000000). generalize dependent (r2 mod 1000000).
  generalize dependent (r1 / 1000000). generalize dependent (r2 / 1000000).
  intros s2 s1 Hs u2 E2 B2 u1 E1 B1.
  assert (Hh : s1 / 3600 <= s2 / 3600) by (apply Z.div_le_mono; lia).
  pose proof (Z.div_mod s1 3600 ltac:(lia)) as F1.
  pose proof (Z.div_mod s2 3600 ltac:(lia)) as F2.
  pose proof (Z.mod_pos_bound s1 3600 ltac:(lia)) as C1.
  pose proof (Z.mod_pos_bound s2 3600 ltac:(lia)) as C2.
  generalize dependent (s1 mod 3600). generalize dependent (s2 mod 3600).
  generalize dependent (s1 / 3600). generalize dependent (s2 / 3600).
  intros h2 h1 Hh m2 F2 C2 m1 F1 C1.
  pose proof (Z.div_mod m1 60 ltac:(lia)) as G1.
  pose proof (Z.div_mod m2 60 ltac:(lia)) as G2.
  pose proof (Z.mod_pos_bound m1 60 ltac:(lia)) as D1.
  pose proof (Z.mod_pos_bound m2 60 ltac:(lia)) as D2.
  generalize dependent (m1 mod 60). generalize dependent (m2 mod 60).
  generalize dependent (m1 / 60). generalize dependent (m2 / 60).
  intros mi2 mi1 x2 G2 D2 x1 G1 D1.
  destruct (Z.compare_spec h1 h2); simpl; [| reflexivity | lia].
  destruct (Z.compare_spec mi1 mi2); simpl; [| reflexivity | lia].
  destruct (Z.compare_spec x1 x2); simpl; [| reflexivity | lia].
  destruct (Z.compare_spec u1 u2); simpl; [lia | reflexivity | lia].
Qed.

Lemma date_cmp_Lt_cmp y1 m1 d1 y2 m2 d2 c :
  date_cmp (y1, m1, d1) (y2, m2, d2) = Lt ->
  lex (y1 ?= y2) (lex (m1 ?= m2) (lex (d1 ?= d2) c)) = Lt.
Proof.
  simpl. destruct (y1 ?= y2), (m1 ?= m2), (d1 ?= d2); simpl; congruence.
Qed.

(** Adding keeps the order of the sums of microseconds. *)
Lemma add_increasing dt1 delta1 dt2 delta2 r1 r2 :
  add dt1 delta1 = Some r1 ->
  add dt2 delta2 = Some r2 ->
  to_us dt1 + delta1 < to_us dt2 + delta2 ->
  lt r1 r2.
Proof.
  unfold add.
  generalize (to_us dt1 + delta1), (to_us dt2 + delta2). intros t1 t2.
  destruct ((0 <? t1 / US_PER_DAY) && _) eqn:R1; [| discriminate].
  destruct ((0 <? t2 / US_PER_DAY) && _) eqn:R2; [| discriminate].
  destruct (ord2ymd (t1 / US_PER_DAY)) as [[y1 m1] d1] eqn:E1.
  destruct (ord2ymd (t2 / US_PER_DAY)) as [[y2 m2] d2] eqn:E2.
  intros [= <-] [= <-] Hlt. unfold lt, cmp. simpl.
  assert (Hd : t1 / US_PER_DAY <= t2 / US_PER_DAY)
    by (apply Z.div_le_mono; [reflexivity | lia]).
  destruct (Z.eq_dec (t1 / US_PER_DAY) (t2 / US_PER_DAY)) as [Heq | Hne].
  - rewrite Heq, E2 in E1. injection E1 as <- <- <-.
    rewrite !Z.compare_refl. simpl.
    pose proof (Z.div_mod t1 US_PER_DAY ltac:(discriminate)) as D1.
    pose proof (Z.div_mod t2 US_PER_DAY ltac:(discriminate)) as D2.
    apply clock_fields_increasing.
    + apply Z.mod_pos_bound. reflexivity.
    + rewrite Heq in D1. lia.
  - apply date_cmp_Lt_cmp. rewrite <- E1, <- E2.
    apply ord2ymd_increasing. lia.
Qed.

(** The sum of [add] is the sum of the microseconds. *)
Lemma to_us_add dt delta r :
  add dt delta = Some r -> to_us r = to_us dt + delta.
Proof.
  unfold add. generalize (to_us dt + delta). intros t.
  destruct ((0 <? t / US_PER_DAY) && _); [| discriminate].
  pose proof (ymd2ord_ord2ymd (t / US_PER_DAY)) as Hord.
  destruct (ord2ymd (t / US_PER_DAY)) as [[y m] d].
  intros [= <-]. unfold to_us, toordinal, timedelta_of. simpl in *.
  rewrite Hord.
  pose proof (Z.div_mod t US_PER_DAY ltac:(discriminate)) as E1.
  generalize dependent (t / US_PER_DAY).
  generalize dependent (t mod US_PER_DAY).
  intros rest days _ E1.
  pose proof (Z.div_mod rest US_PER_SECOND ltac:(discriminate)) as E2.
  generalize dependent (rest / US_PER_SECOND).
  generalize dependent (rest mod US_PER_SECOND).
  intros us secs E2.
  pose proof (Z.div_mod secs 3600 ltac:(discriminate)) as E3.
  generalize dependent (secs / 3600). generalize dependent (secs mod 3600).
  intros rem h E3.
  pose proof (Z.div_mod rem 60 ltac:(discriminate)) as E4.
  generalize dependent (rem / 60). generalize dependent (rem mod 60).
  intros s mi E4.
  unfold US_PER_DAY, US_PER_SECOND in *. lia.
Qed.

(** [add] succeeds from the first day to the last second of year 9999. *)
Lemma add_in_range dt delta :
  US_PER_DAY <= to_us dt + delta <= to_us (mkdatetime 9999 12 31 23 59 59 0) ->
  is_Some (add dt delta).
Proof.
  intros [Hlo Hhi]. unfold add.
  assert (H1 : 1 <= (to_us dt + delta) / US_PER_DAY).
  { apply Z.div_le_lower_bound; [reflexivity | lia]. }
  assert (H2 : (to_us dt + delta) / US_PER_DAY <= MAXORDINAL).
  { change MAXORDINAL
      with (to_us (mkdatetime 9999 12 31 23 59 59 0) / US_PER_DAY).
    apply Z.div_le_mono; [reflexivity | exact Hhi]. }
  apply Z.leb_le in H2.
  replace (0 <? _) with true by (symmetry; apply Z.ltb_lt; lia).
  rewrite H2. simpl.
  destruct (ord2ymd _) as [[y m] d]. eauto.
Qed.

Lemma DAYS_BEFORE_MONTH_nonneg m : 0 <= DAYS_BEFORE_MONTH m.
Proof.
  unfold DAYS_BEFORE_MONTH. generalize (Z.to_nat m). intros k.
  do 13 (destruct k as [|k]; [simpl; lia |]). destruct k; simpl; lia.
Qed.

(** A valid datetime is on day 1 or later. *)
Lemma valid_to_us dt : valid dt = true -> US_PER_DAY <= to_us dt.
Proof.
  unfold valid. rewrite !andb_true_iff, !Z.leb_le. intros H.
  unfold to_us, timedelta_of, toordinal, ymd2ord, days_before_year,
    days_before_month.
  pose proof (DAYS_BEFORE_MONTH_nonneg (month dt)).
  assert (0 <= (if (2 <? month dt) && is_leap (year dt) then 1 else 0))
    by (destruct (_ && _); lia).
  assert (0 <= (year dt - 1) * 365 + (year dt - 1) / 4 - (year dt - 1) / 100
               + (year dt - 1) / 400).
  { Z.to_euclidean_division_equations. lia. }
  unfold US_PER_DAY, US_PER_SECOND. nia.
Qed.

Lemma valid_replace_microsecond dt :
  valid dt = true -> valid (replace_microsecond dt 0) = true.
Proof.
  unfold valid. simpl. rewrite !andb_true_iff, !Z.leb_le. lia.
Qed.

End Calendar.

(** *** Evaluating query sets *)

Section Fetch.

Lemma matches_filter_q q qs o :
  matches (filter_q q qs) o = matches qs o && q_holds q o.
Proof.
  unfold matches, filter_q. simpl.
  rewrite forallb_app. simpl. now rewrite andb_true_r.
Qed.

Lemma matches_all db o : matches (all db) o = true.
Proof. reflexivity. Qed.

(** A row is fetched exactly when it is in the table read and meets the
    conditions. *)
Lemma In_fetch qs o :
  In o (fetch qs) <-> In o (source qs) /\ matches qs o = true.
Proof.
  unfold fetch. rewrite <- filter_In. split; intros H.
  - eapply Permutation_in; [apply (merge_sort_Permutation ordering) | exact H].
  - eapply Permutation_in;
      [symmetry; apply (merge_sort_Permutation ordering) | exact H].
Qed.

#[local] Instance ordering_total : Total ordering.
Proof.
  intros a b. unfold ordering, ordering_leb, leb.
  rewrite (cmp_antisym (start_time a) (start_time b)),
          (cmp_antisym (end_time a) (end_time b)).
  destruct (cmp (start_time a) (start_time b)),
           (cmp (end_time a) (end_time b)); simpl; tauto.
Qed.

(** What is fetched comes in the order of [Meta.ordering]. *)
Lemma fetch_sorted qs : Sorted ordering (fetch qs).
Proof. apply Sorted_merge_sort, _. Qed.

Lemma source_filter_q q qs : source (filter_q q qs) = source qs.
Proof. reflexivity. Qed.

(** Filtering narrows what is fetched by the condition given. *)
Lemma In_fetch_filter_q q qs o :
  In o (fetch (filter_q q qs)) <-> In o (fetch qs) /\ q_holds q o = true.
Proof.
  rewrite !In_fetch, matches_filter_q, andb_true_iff, source_filter_q.
  tauto.
Qed.

Lemma fetch_all db o : In o (fetch (all db)) <-> In o db.
Proof. rewrite In_fetch. simpl. rewrite matches_all. tauto. Qed.

End Fetch.

(** *** The keyword dictionary *)

Section Dict.

Lemma contains_setdefault_ne k k' v (d : gmap string pyval) :
  k <> k' -> contains k' (setdefault k v d) = contains k' d.
Proof.
  intros Hne. unfold contains, setdefault.
  destruct (d !! k); [reflexivity |]. now rewrite lookup_insert_ne.
Qed.

Lemma contains_false k (d : gmap string pyval) :
  contains k d = false <-> d !! k = None.
Proof. unfold contains. destruct (d !! k); intuition congruence. Qed.

Lemma contains_true k (d : gmap string pyval) :
  contains k d = true <-> is_Some (d !! k).
Proof.
  unfold contains. destruct (d !! k); split; intros H;
    try reflexivity; try discriminate; eauto.
  destruct H; discriminate.
Qed.

End Dict.

(** *** The loop of [add_occurrences] *)

Section Loop.

Variables (self : Event) (delta : timedelta).

(** When every end is representable the loop appends one row per value, in
    order, and raises nothing. *)
Lemma create_each_all evs : forall db,
  Forall (fun ev => is_Some (add ev delta)) evs ->
  exists created,
    create_each self delta evs db = (db ++ created, None)
    /\ map start_time created = evs
    /\ Forall (made self delta) created.
Proof.
  induction evs as [|ev rest IH]; intros db Hall.
  - exists []. simpl. rewrite app_nil_r. repeat split; constructor.
  - inversion Hall as [|? ? [e He] Hrest]; subst.
    destruct (IH (create self ev e db) Hrest) as (created & Hrun & Hst & Hmade).
    exists (mkOccurrence None ev e self :: created).
    simpl. rewrite He, Hrun. unfold create. rewrite <- app_assoc. simpl.
    repeat split; [now rewrite Hst |].
    constructor; [| exact Hmade]. now repeat split.
Qed.

(** The first value whose end is not representable stops the loop with
    [OverflowError]; the rows made before it stay. *)
Lemma create_each_overflow evs ev rest : forall db,
  Forall (fun ev => is_Some (add ev delta)) evs ->
  add ev delta = None ->
  exists created,
    create_each self delta (evs ++ ev :: rest) db
      = (db ++ created, Some OverflowError)
    /\ map start_time created = evs.
Proof.
  induction evs as [|x evs IH]; intros db Hall Hov.
  - exists []. simpl. now rewrite Hov, app_nil_r.
  - inversion Hall as [|? ? [e He] Hrest]; subst.
    destruct (IH (create self x e db) Hrest Hov) as (created & Hrun & Hst).
    exists (mkOccurrence None x e self :: created).
    simpl. rewrite He, Hrun. unfold create. rewrite <- app_assoc. simpl.
    now rewrite Hst.
Qed.

End Loop.

(** *** The recurrence expander *)

Section Expander.

Variable rrule : rrule_impl.

(** When the iterator yields [evs] and stops, and every end is
    representable, [add_occurrences] appends one row per value. *)
Lemma add_occurrences_bounded self s e params db evs :
  (contains "count" params || contains "until" params) = true ->
  rrule s (setdefault "freq" (PyInt DAILY) params) = mkiteration evs None ->
  Forall (fun ev => is_Some (add ev (sub e s))) evs ->
  exists created,
    add_occurrences rrule self s e params db = (db ++ created, None)
    /\ map start_time created = evs
    /\ Forall (made self (sub e s)) created.
Proof.
  intros Hb Hit Hall. unfold add_occurrences.
  rewrite !contains_setdefault_ne by discriminate.
  apply orb_true_iff in Hb.
  assert (negb (contains "count" params) && negb (contains "until" params)
          = false) as ->.
  { destruct Hb as [-> | ->]; simpl; [reflexivity | apply andb_false_r]. }
  rewrite Hit. simpl.
  destruct (create_each_all self (sub e s) evs db Hall)
    as (created & Hrun & Hst & Hmade).
  exists created. now rewrite Hrun.
Qed.

(** C1. A rule with neither [count] nor [until] is not expanded: whatever
    else it holds, and whatever the library would do with it, exactly one
    occurrence is created, with the literal [start_time] and [end_time]. *)
Theorem add_occurrences_unbounded_single self s e params db :
  params !! "count" = None ->
  params !! "until" = None ->
  add_occurrences rrule self s e params db
    = (db ++ [mkOccurrence None s e self], None).
Proof.
  intros Hc Hu. unfold add_occurrences.
  rewrite !contains_setdefault_ne by discriminate.
  apply contains_false in Hc, Hu. rewrite Hc, Hu. reflexivity.
Qed.

(** With [count = N]: when the library yields [N] values in strictly
    increasing order and every end is representable, the outcome is the one
    for [N]. *)
Lemma add_occurrences_of_yielded self s e params db N evs :
  params !! "count" = Some (PyInt N) ->
  rrule s (setdefault "freq" (PyInt DAILY) params) = mkiteration evs None ->
  Z.of_nat (length evs) = N ->
  Sorted lt evs ->
  Forall (fun ev => is_Some (add ev (sub e s))) evs ->
  counted N (sub e s) db (add_occurrences rrule self s e params db).
Proof.
  intros Hc Hit Hlen Hsorted Hall.
  destruct (add_occurrences_bounded self s e params db evs)
    as (created & Hrun & Hst & Hmade); [| exact Hit | exact Hall |].
  { apply orb_true_iff. left. apply contains_true. rewrite Hc. eauto. }
  exists created. split; [exact Hrun |].
  split; [now rewrite <- Hlen, <- Hst, length_map |].
  split; [| now rewrite Hst].
  eapply Forall_impl; [exact Hmade |]. now intros o (H & _).
Qed.

(** C4 (as amended). The expander checks nothing itself.  Without [count]
    and [until] the rule is not looked at: one occurrence, no error.
    Otherwise the rule goes to the library, and an exception the library
    raises before it yields anything reaches the caller as it is, with no
    occurrence created. *)
Theorem add_occurrences_library_error self s e params db :
  (params !! "count" = None -> params !! "until" = None ->
   add_occurrences rrule self s e params db
     = (db ++ [mkOccurrence None s e self], None))
  /\ (forall err,
        is_Some (params !! "count") \/ is_Some (params !! "until") ->
        rrule s (setdefault "freq" (PyInt DAILY) params)
          = mkiteration [] (Some err) ->
        add_occurrences rrule self s e params db = (db, Some err)).
Proof.
  split.
  - intros Hc Hu. unfold add_occurrences.
    rewrite !contains_setdefault_ne by discriminate.
    apply contains_false in Hc, Hu. rewrite Hc, Hu. reflexivity.
  - intros err Hb Hit. unfold add_occurrences.
    rewrite !contains_setdefault_ne by discriminate.
    rewrite <- !contains_true in Hb.
    assert (negb (contains "count" params) && negb (contains "until" params)
            = false) as ->.
    { destruct Hb as [-> | ->]; simpl; [reflexivity | apply andb_false_r]. }
    rewrite Hit. reflexivity.
Qed.

End Expander.

(** *** The plain rules *)

Section PlainRules.

(** The values of a plain rule: [k] of them from index [m] on, all within
    range, come out complete, in strictly increasing order, each [step]
    after the one before. *)
Lemma plain_values start step :
  0 < step -> US_PER_DAY <= to_us start ->
  forall (k : nat) (m : Z),
    0 <= m ->
    to_us start + (m + Z.of_nat k - 1) * step <= MAX_US ->
    let l := omap (fun j => add start (j * step)) (seqZ m (Z.of_nat k)) in
    length l = k
    /\ Sorted lt l
    /\ (forall y, add start ((m - 1) * step) = Some y -> HdRel lt y l)
    /\ Forall (fun ev => to_us start <= to_us ev
                         <= to_us start + (m + Z.of_nat k - 1) * step) l.
Proof.
  intros Hstep Hlo. induction k as [|k IH]; intros m Hm Hhi.
  - simpl. repeat split; constructor.
  - rewrite seqZ_cons by lia.
    replace (Z.pred (Z.of_nat (S k))) with (Z.of_nat k) by lia.
    destruct (add_in_range start (m * step)) as [v Hv];
      [fold MAX_US; nia |].
    destruct (IH (Z.succ m)) as (Hlen & Hsorted & Hhd & Hall); [lia | nia |].
    change (omap ?g (m :: ?l))
      with (match g m with Some y => y :: omap g l | None => omap g l end).
    cbv beta. rewrite Hv.
    repeat split.
    + simpl. now rewrite Hlen.
    + constructor; [exact Hsorted |]. apply Hhd.
      now replace (Z.succ m - 1) with m by lia.
    + intros y Hy. constructor.
      apply (add_increasing _ _ _ _ _ _ Hy Hv). nia.
    + constructor.
      * rewrite (to_us_add _ _ _ Hv). nia.
      * eapply Forall_impl; [exact Hall |]. simpl. intros ev Hev. nia.
Qed.

Lemma unit_us_range f u :
  unit_us f = Some u -> YEARLY <= f <= SECONDLY /\ 0 < u.
Proof.
  unfold unit_us, YEARLY, WEEKLY, DAILY, HOURLY, MINUTELY, SECONDLY.
  repeat match goal with
  | |- context [?x =? ?y] => destruct (Z.eqb_spec x y)
  end; intros [= <-]; subst; split; try lia; reflexivity.
Qed.

Lemma plain_interval_pos params i : plain_interval params = Some i -> 1 <= i.
Proof.
  unfold plain_interval.
  destruct (params !! "interval") as [[| z | |] |]; try discriminate.
  - destruct (Z.leb_spec 1 z); [| discriminate]. now intros [= <-].
  - intros [= <-]. lia.
Qed.

(** The plain-rule instance honours [count]: [N] values, in strictly
    increasing order, when they fit before the last representable second. *)
Lemma rrule_plain_count dtstart params f u i N :
  dom params ⊆ plain_keys ->
  params !! "freq" = Some (PyInt f) ->
  unit_us f = Some u ->
  plain_interval params = Some i ->
  params !! "count" = Some (PyInt N) ->
  0 < N ->
  params !! "until" = None ->
  valid dtstart = true ->
  to_us (replace_microsecond dtstart 0) + (N - 1) * (i * u) <= MAX_US ->
  exists evs,
    rrule_plain dtstart params = mkiteration evs None
    /\ Z.of_nat (length evs) = N
    /\ Sorted lt evs
    /\ Forall (fun ev =>
                 to_us (replace_microsecond dtstart 0) <= to_us ev
                 <= to_us (replace_microsecond dtstart 0) + (N - 1) * (i * u))
         evs.
Proof.
  intros Hdom Hf Hu Hi Hc HN Hunt Hvalid Hroom.
  destruct (unit_us_range f u Hu) as [Hfr Hupos].
  pose proof (plain_interval_pos params i Hi) as Hipos.
  assert (Hstep : 0 < i * u) by nia.
  set (start := replace_microsecond dtstart 0) in *.
  assert (Hlo : US_PER_DAY <= to_us start)
    by (apply valid_to_us, valid_replace_microsecond, Hvalid).
  assert (Hn : Z.min N ((MAX_US - to_us start) / (i * u) + 1) = N).
  { apply Z.min_l.
    assert (N - 1 <= (MAX_US - to_us start) / (i * u)); [| lia].
    apply Z.div_le_lower_bound; [exact Hstep | nia]. }
  destruct (plain_values start (i * u) Hstep Hlo (Z.to_nat N) 0)
    as (Hlen & Hsorted & _ & Hall); [lia | rewrite Z2Nat.id by lia; nia |].
  rewrite Z2Nat.id in * by lia.
  eexists. split; [| split; [| split; [exact Hsorted |]]].
  - unfold rrule_plain, plain.
    rewrite bool_decide_true by exact Hdom. simpl. rewrite Hf.
    replace ((f <? YEARLY) || (SECONDLY <? f)) with false
      by (symmetry; apply orb_false_iff; split; apply Z.ltb_ge; lia).
    rewrite Hu. simpl. rewrite Hi. simpl.
    unfold plain_count, plain_until. rewrite Hc, Hunt.
    replace (1 <=? N) with true by (symmetry; apply Z.leb_le; lia).
    simpl. fold start. rewrite Hn. reflexivity.
  - rewrite Hlen. lia.
  - eapply Forall_impl; [exact Hall |]. simpl. intros ev Hev.
    replace (N - 1) with (0 + N - 1) by lia. exact Hev.
Qed.

Lemma lookup_setdefault_ne k k' v (d : gmap string pyval) :
  k <> k' -> setdefault k v d !! k' = d !! k'.
Proof.
  intros Hne. unfold setdefault.
  destruct (d !! k); [reflexivity |]. now rewrite lookup_insert_ne.
Qed.

(** The loop makes one row of each value it is given, in order, and stops
    at the first one whose end is out of range. *)
Lemma create_each_prefix self delta evs : forall db,
  exists created rest,
    evs = map start_time created ++ rest
    /\ Forall (made self delta) created
    /\ create_each self delta evs db
       = (db ++ created,
          match rest with [] => None | _ :: _ => Some OverflowError end)
    /\ (forall ev, head rest = Some ev -> add ev delta = None).
Proof.
  induction evs as [|ev evs IH]; intros db.
  - exists [], []. rewrite !app_nil_r.
    split; [reflexivity |]. split; [constructor |].
    split; [reflexivity | discriminate].
  - simpl. destruct (add ev delta) as [e |] eqn:Hadd.
    + destruct (IH (create self ev e db))
        as (created & rest & Hevs & Hmade & Hrun & Hrest).
      exists (mkOccurrence None ev e self :: created), rest.
      split; [simpl; now rewrite Hevs |].
      split; [constructor; [now repeat split | exact Hmade] |].
      split; [| exact Hrest].
      rewrite Hrun. unfold create. now rewrite <- app_assoc.
    + exists [], (ev :: evs). rewrite app_nil_r.
      split; [reflexivity |]. split; [constructor |].
      split; [reflexivity |]. now intros ev' [= <-].
Qed.

(** With a bound in the rule, the rows added are those of the values the
    library yields, up to the first end out of range. *)
Lemma add_occurrences_prefix (rrule : rrule_impl) self s e params db :
  is_Some (params !! "count") \/ is_Some (params !! "until") ->
  exists created rest,
    yielded (rrule s (setdefault "freq" (PyInt DAILY) params))
      = map start_time created ++ rest
    /\ Forall (made self (sub e s)) created
    /\ add_occurrences rrule self s e params db
       = (db ++ created,
          match rest with
          | [] => raised (rrule s (setdefault "freq" (PyInt DAILY) params))
          | _ :: _ => Some OverflowError
          end)
    /\ (forall ev, head rest = Some ev -> add ev (sub e s) = None).
Proof.
  intros Hb. unfold add_occurrences.
  rewrite !contains_setdefault_ne by discriminate.
  rewrite <- !contains_true in Hb.
  assert (negb (contains "count" params) && negb (contains "until" params)
          = false) as ->.
  { destruct Hb as [-> | ->]; simpl; [reflexivity | apply andb_false_r]. }
  destruct (create_each_prefix self (sub e s)
              (yielded (rrule s (setdefault "freq" (PyInt DAILY) params))) db)
    as (created & rest & Hevs & Hmade & Hrun & Hrest).
  exists created, rest. rewrite Hrun.
  repeat split; try assumption. now destruct rest.
Qed.

(** The outcome for [N] is reached only through [N] values of the library,
    in strictly increasing order and with representable ends. *)
Lemma add_occurrences_counted_inv (rrule : rrule_impl) self s e params db N :
  params !! "count" = Some (PyInt N) ->
  counted N (sub e s) db (add_occurrences rrule self s e params db) ->
  exists evs,
    rrule s (setdefault "freq" (PyInt DAILY) params) = mkiteration evs None
    /\ Z.of_nat (length evs) = N
    /\ Sorted lt evs
    /\ Forall (fun ev => is_Some (add ev (sub e s))) evs.
Proof.
  intros Hc (created' & Hout & Hlen & Hends & Hsorted).
  destruct (add_occurrences_prefix rrule self s e params db)
    as (created & rest & Hevs & Hmade & Hrun & _).
  { left. rewrite Hc. eauto. }
  rewrite Hrun in Hout. injection Hout as Hdb Herr.
  apply app_inv_head in Hdb as ->.
  destruct rest as [|ev rest]; [| discriminate].
  rewrite app_nil_r in Hevs.
  exists (map start_time created'). split; [| split; [| split]].
  - destruct (rrule s (setdefault "freq" (PyInt DAILY) params)) as [ys r].
    simpl in *. now subst.
  - now rewrite length_map.
  - exact Hsorted.
  - rewrite Forall_map. eapply Forall_impl; [exact Hends |].
    simpl. intros o Ho. rewrite Ho. eauto.
Qed.

(** What [plain] yields for a rule with a count and no [until]. *)
Lemma plain_count_run dtstart params f u i N :
  dom params ⊆ plain_keys ->
  params !! "freq" = Some (PyInt f) ->
  unit_us f = Some u ->
  plain_interval params = Some i ->
  params !! "count" = Some (PyInt N) ->
  0 < N ->
  params !! "until" = None ->
  plain dtstart params
  = Some (mkiteration
            (omap (fun k => add (replace_microsecond dtstart 0) (k * (i * u)))
               (seqZ 0 (Z.min N
                          ((MAX_US - to_us (replace_microsecond dtstart 0))
                           / (i * u) + 1))))
            None).
Proof.
  intros Hdom Hf Hu Hi Hc HN Hunt.
  destruct (unit_us_range f u Hu) as [Hfr _].
  unfold plain. rewrite bool_decide_true by exact Hdom. simpl. rewrite Hf.
  replace ((f <? YEARLY) || (SECONDLY <? f)) with false
    by (symmetry; apply orb_false_iff; split; apply Z.ltb_ge; lia).
  rewrite Hu. simpl. rewrite Hi. simpl.
  unfold plain_count, plain_until. rewrite Hc, Hunt.
  replace (1 <=? N) with true by (symmetry; apply Z.leb_le; lia).
  reflexivity.
Qed.

(** A plain rule with [count = N] never yields more than [N] values, and
    yields them in strictly increasing order. *)
Lemma plain_count_at_most dtstart params f u i N :
  dom params ⊆ plain_keys ->
  params !! "freq" = Some (PyInt f) ->
  unit_us f = Some u ->
  plain_interval params = Some i ->
  params !! "count" = Some (PyInt N) ->
  0 < N ->
  params !! "until" = None ->
  valid dtstart = true ->
  exists evs,
    plain dtstart params = Some (mkiteration evs None)
    /\ Z.of_nat (length evs) <= N
    /\ Sorted lt evs.
Proof.
  intros Hdom Hf Hu Hi Hc HN Hunt Hvalid.
  rewrite (plain_count_run dtstart params f u i N) by assumption.
  destruct (unit_us_range f u Hu) as [_ Hupos].
  pose proof (plain_interval_pos params i Hi) as Hipos.
  assert (Hstep : 0 < i * u) by nia.
  set (start := replace_microsecond dtstart 0).
  assert (Hlo : US_PER_DAY <= to_us start)
    by (apply valid_to_us, valid_replace_microsecond, Hvalid).
  set (n := Z.min N ((MAX_US - to_us start) / (i * u) + 1)).
  eexists. split; [reflexivity |].
  destruct (Z.le_gt_cases n 0) as [Hn | Hn].
  - rewrite seqZ_nil by exact Hn. simpl. split; [lia | constructor].
  - destruct (plain_values start (i * u) Hstep Hlo (Z.to_nat n) 0)
      as (Hlen & Hsorted & _ & _); [lia | |].
    { rewrite Z2Nat.id by lia.
      assert (n - 1 <= (MAX_US - to_us start) / (i * u)) by lia.
      pose proof (Z.mul_div_le (MAX_US - to_us start) (i * u) Hstep).
      nia. }
    rewrite Z2Nat.id in * by lia.
    split; [rewrite Hlen; lia | exact Hsorted].
Qed.

Lemma plain_Some_dom dtstart params it :
  plain dtstart params = Some it -> dom params ⊆ plain_keys.
Proof.
  unfold plain. destruct (bool_decide_reflect (dom params ⊆ plain_keys));
    [tauto | discriminate].
Qed.

Lemma Sorted_lt_prefix (l rest : list datetime) :
  Sorted lt (l ++ rest) -> Sorted lt l.
Proof.
  induction l as [|x l IH]; [constructor |].
  simpl. intros H. apply Sorted_inv in H as [Hs Hhd].
  constructor; [now apply IH |].
  destruct l; [constructor |]. apply HdRel_inv in Hhd. now constructor.
Qed.

(** With [count = N] and a plain rule, for a library that does on the rule
    what [plain] computes: never more than [N] rows, the starts strictly
    increasing. *)
Lemma add_occurrences_count_at_most (rrule : rrule_impl) self s e params db
    f u i N :
  plain s (setdefault "freq" (PyInt DAILY) params)
    = Some (rrule s (setdefault "freq" (PyInt DAILY) params)) ->
  setdefault "freq" (PyInt DAILY) params !! "freq" = Some (PyInt f) ->
  unit_us f = Some u ->
  plain_interval (setdefault "freq" (PyInt DAILY) params) = Some i ->
  params !! "count" = Some (PyInt N) ->
  0 < N ->
  params !! "until" = None ->
  valid s = true ->
  exists created,
    fst (add_occurrences rrule self s e params db) = db ++ created
    /\ Z.of_nat (length created) <= N
    /\ Forall (made self (sub e s)) created
    /\ Sorted lt (map start_time created).
Proof.
  intros Hplain Hf Hu Hi Hc HN Hunt Hvalid.
  destruct (plain_count_at_most s (setdefault "freq" (PyInt DAILY) params)
              f u i N) as (evs & Hit & Hlen & Hsorted); try assumption.
  { exact (plain_Some_dom _ _ _ Hplain). }
  { now rewrite lookup_setdefault_ne by discriminate. }
  { now rewrite lookup_setdefault_ne by discriminate. }
  rewrite Hplain in Hit. injection Hit as Hit.
  destruct (add_occurrences_prefix rrule self s e params db)
    as (created & rest & Hevs & Hmade & Hrun & _).
  { left. rewrite Hc. eauto. }
  rewrite Hit in Hevs. simpl in Hevs.
  exists created. rewrite Hrun. split; [reflexivity |].
  assert (Hl : length evs = (length created + length rest)%nat)
    by now rewrite Hevs, length_app, length_map.
  split; [lia |]. split; [exact Hmade |].
  rewrite Hevs in Hsorted. exact (Sorted_lt_prefix _ _ Hsorted).
Qed.

(** With [count = N] and a plain rule, for a library that does on the rule
    what [plain] computes: when the occurrences fit, the outcome is the one
    for [N]. *)
Lemma add_occurrences_count_fits (rrule : rrule_impl) self s e params db
    f u i N :
  plain s (setdefault "freq" (PyInt DAILY) params)
    = Some (rrule s (setdefault "freq" (PyInt DAILY) params)) ->
  setdefault "freq" (PyInt DAILY) params !! "freq" = Some (PyInt f) ->
  unit_us f = Some u ->
  plain_interval (setdefault "freq" (PyInt DAILY) params) = Some i ->
  params !! "count" = Some (PyInt N) ->
  0 < N ->
  params !! "until" = None ->
  valid s = true ->
  fits (replace_microsecond s 0) (sub e s) N (i * u) ->
  counted N (sub e s) db (add_occurrences rrule self s e params db).
Proof.
  intros Hplain Hf Hu Hi Hc HN Hunt Hvalid [Hlo Hhi].
  destruct (unit_us_range f u Hu) as [_ Hupos].
  pose proof (plain_interval_pos _ i Hi) as Hipos.
  destruct (rrule_plain_count s (setdefault "freq" (PyInt DAILY) params)
              f u i N) as (evs & Hit & Hlen & Hsorted & Hrange);
    try assumption.
  { exact (plain_Some_dom _ _ _ Hplain). }
  { now rewrite lookup_setdefault_ne by discriminate. }
  { now rewrite lookup_setdefault_ne by discriminate. }
  { nia. }
  unfold rrule_plain in Hit. rewrite Hplain in Hit.
  apply (add_occurrences_of_yielded rrule self s e params db N evs);
    try assumption.
  eapply Forall_impl; [exact Hrange |]. simpl. intros ev Hev.
  apply add_in_range. fold MAX_US. nia.
Qed.

(** C3 (as amended). With [count = N], [N] positive, and no [until]:
    - whatever the library, the rows added are those of the values it
      yields, in order, each ending its start plus [end_time - start_time],
      up to the first value whose end is out of range, which stops the
      expansion with [OverflowError]; if there is none, the expansion ends
      as the library's iteration does;
    - so exactly [N] rows with strictly increasing starts and no error come
      out if and only if the library yields [N] values in strictly
      increasing order, raises nothing, and every end is representable;
    - for the plain rules (a frequency from weekly to secondly, daily when
      absent, with or without an interval) and a library that does on them
      what [plain] computes, never more than [N] rows come out, with
      strictly increasing starts, and exactly [N] with no error whenever
      the [N] occurrences fit before the end of year 9999. *)
Theorem add_occurrences_count self s e params db N :
  params !! "count" = Some (PyInt N) ->
  0 < N ->
  params !! "until" = None ->
  (forall rrule : rrule_impl,
     (exists created rest,
        yielded (rrule s (setdefault "freq" (PyInt DAILY) params))
          = map start_time created ++ rest
        /\ Forall (made self (sub e s)) created
        /\ add_occurrences rrule self s e params db
           = (db ++ created,
              match rest with
              | [] => raised (rrule s (setdefault "freq" (PyInt DAILY) params))
              | _ :: _ => Some OverflowError
              end)
        /\ (forall ev, head rest = Some ev -> add ev (sub e s) = None))
     /\ (counted N (sub e s) db (add_occurrences rrule self s e params db)
         <-> exists evs,
               rrule s (setdefault "freq" (PyInt DAILY) params)
                 = mkiteration evs None
               /\ Z.of_nat (length evs) = N
               /\ Sorted lt evs
               /\ Forall (fun ev => is_Some (add ev (sub e s))) evs))
  /\ (forall (rrule : rrule_impl) f u i,
        plain s (setdefault "freq" (PyInt DAILY) params)
          = Some (rrule s (setdefault "freq" (PyInt DAILY) params)) ->
        setdefault "freq" (PyInt DAILY) params !! "freq" = Some (PyInt f) ->
        unit_us f = Some u ->
        plain_interval (setdefault "freq" (PyInt DAILY) params) = Some i ->
        valid s = true ->
        (exists created,
           fst (add_occurrences rrule self s e params db) = db ++ created
           /\ Z.of_nat (length created) <= N
           /\ Forall (made self (sub e s)) created
           /\ Sorted lt (map start_time created))
        /\ (fits (replace_microsecond s 0) (sub e s) N (i * u) ->
            counted N (sub e s) db
              (add_occurrences rrule self s e params db))).
Proof.
  intros Hc HN Hunt. split.
  - intros rrule. split.
    + apply add_occurrences_prefix. left. rewrite Hc. eauto.
    + split.
      * now apply add_occurrences_counted_inv.
      * intros (evs & Hit & Hlen & Hsorted & Hall).
        now apply (add_occurrences_of_yielded rrule self s e params db N evs).
  - intros rrule f u i Hplain Hf Hu Hi Hvalid. split.
    + now apply (add_occurrences_count_at_most rrule self s e params db
                   f u i N).
    + intros Hfits.
      now apply (add_occurrences_count_fits rrule self s e params db
                   f u i N).
Qed.

End PlainRules.

(** *** The occurrence queries *)

Section Queries.

Lemma stored_objects c o : In o (fetch (get_queryset objects c)) <-> In o (table c).
Proof. apply fetch_all. Qed.

(** What [upcoming] fetches: the rows of the manager that start at the
    reference time or later, whatever horizon is passed. *)
Lemma In_upcoming self c start end_ o :
  In o (fetch (upcoming self c start end_)) <->
  In o (fetch (get_queryset self c))
  /\ le (or_else start (timezone_now c)) (start_time o).
Proof.
  unfold upcoming, filter_kw. rewrite In_fetch_filter_q. simpl.
  now rewrite andb_true_r, geb_le.
Qed.

(** The horizon does not change the query set returned. *)
Lemma upcoming_horizon_unused self c start end_ :
  upcoming self c start end_ = upcoming self c start None.
Proof. reflexivity. Qed.

(** C2, at a failing input.  With [late] (starting 2024-03-20 20:00) and
    [early] (starting 2024-03-05 20:00) stored, [upcoming] from 2024-03-01
    with horizon 2024-03-10 returns both: [late] starts after the horizon. *)
Theorem upcoming_horizon_not_applied :
  fetch (upcoming objects march (Some mar01) (Some mar10)) = [early; late]
  /\ lt mar10 (start_time late).
Proof. split; vm_compute; reflexivity. Qed.

(** C6. [upcoming(T)] has every occurrence of the manager (for [objects],
    every stored one) that starts exactly at [T], has none that starts
    before [T], and without a reference time is [upcoming] of the current
    time. *)
Theorem upcoming_reference_time self c T o :
  (In o (fetch (get_queryset self c)) -> start_time o = T ->
   In o (fetch (upcoming self c (Some T) None)))
  /\ (lt (start_time o) T ->
      ~ In o (fetch (upcoming self c (Some T) None)))
  /\ upcoming self c None None
     = upcoming self c (Some (timezone_now c)) None.
Proof.
  split; [| split].
  - intros Hin <-. apply In_upcoming. split; [exact Hin |].
    simpl. apply le_refl.
  - intros Hlt Hin. apply In_upcoming in Hin. destruct Hin as [_ Hle].
    simpl in Hle. exact (lt_not_le _ _ Hlt Hle).
  - reflexivity.
Qed.

(** C5. [daily(D)], where [D] is the day given or else the current day,
    has an occurrence of the manager exactly when its start lies in the
    window of [D], or its end does, or it spans the window; and with an event
    filter, only when that event owns it. *)
Theorem daily_occurrences_overlap self c dt ev o :
  let D := or_else dt (a_datetime (datetime_now c)) in
  In o (fetch (daily_occurrences self c dt ev)) <->
  In o (fetch (get_queryset self c))
  /\ (within (start_time o) D \/ within (end_time o) D \/ spans o D)
  /\ owned_by ev o.
Proof.
  intros D.
  assert (Hwin :
    q_holds
      (Q_or
         (Q_or (Q_ [start_time__gte (midnight D);
                    start_time__lte (last_second D)])
               (Q_ [end_time__gte (midnight D);
                    end_time__lte (last_second D)]))
         (Q_ [start_time__lt (midnight D); end_time__gt (last_second D)])) o
    = true
    <-> within (start_time o) D \/ within (end_time o) D \/ spans o D).
  { simpl. unfold within, spans.
    rewrite !orb_true_iff, !andb_true_iff, !geb_le, !leb_le, ltb_lt, gtb_lt.
    tauto. }
  unfold daily_occurrences, filter_kw. fold D.
  change (datetime_ymd (year_of D) (month_of D) (day_of D)) with (midnight D).
  change (replace_hms (midnight D) 23 59 59) with (last_second D).
  destruct ev as [e |]; simpl owned_by.
  - rewrite !In_fetch_filter_q, Hwin. simpl.
    rewrite andb_true_r, Z.eqb_eq. tauto.
  - rewrite In_fetch_filter_q, Hwin. tauto.
Qed.

(** C7. [daily] of a timestamp is [daily] of its date: the query set depends
    on the year, month and day of the argument only. *)
Theorem daily_occurrences_date_only self c ev :
  (forall dt,
     daily_occurrences self c (Some (a_datetime dt)) ev
     = daily_occurrences self c (Some (a_date (date_of dt))) ev)
  /\ (forall x y,
        year_of x = year_of y -> month_of x = month_of y ->
        day_of x = day_of y ->
        daily_occurrences self c (Some x) ev
        = daily_occurrences self c (Some y) ev).
Proof.
  split.
  - reflexivity.
  - intros x y Hy Hm Hd. unfold daily_occurrences. simpl or_else.
    now rewrite Hy, Hm, Hd.
Qed.

Lemma in_past_lt c o :
  in_past c o = true <-> lt (datetime_now c) (end_time o).
Proof. unfold in_past. apply gtb_lt. Qed.

(** C10. [in_past] is true exactly when the occurrence ends after the
    current time: true of what has not ended yet, false of what is over. *)
Theorem in_past_iff_not_ended c o :
  (in_past c o = true <-> lt (datetime_now c) (end_time o))
  /\ (lt (end_time o) (datetime_now c) -> in_past c o = false).
Proof.
  split; [apply in_past_lt |].
  intros Hlt. destruct (in_past c o) eqn:E; [| reflexivity].
  apply in_past_lt in E. unfold lt in *.
  rewrite (cmp_antisym (end_time o)), Hlt in E. discriminate.
Qed.

(** C9. The display title is the event's title when the occurrence has no
    description (none, or an empty one), and the event's title followed by
    the description in parentheses when it has one. *)
Theorem title_of_occurrence o :
  (description o = None \/ description o = Some "" ->
   title o = event_title (event o))
  /\ (forall d, description o = Some d -> d <> "" ->
        title o = event_title (event o) +:+ " (" +:+ d +:+ ")").
Proof.
  unfold title. split.
  - intros [-> | ->]; reflexivity.
  - intros d -> Hne. apply String.eqb_neq in Hne. rewrite Hne. reflexivity.
Qed.

End Queries.

(** *** Formatting *)

Section Formatting.

(** [%d], [%H] and [%M] write two digits. *)
Lemma zero_pad_two_digits n : 0 <= n <= 99 -> zero_pad 2 n = two_digits n.
Proof.
  intros Hn. apply String.eqb_eq.
  apply (all_from_spec
           (fun k => String.eqb (zero_pad 2 k) (two_digits k))
           (Z.to_nat 100) 0);
    [vm_compute; reflexivity | lia].
Qed.

(** [%Y] writes four digits from the year 1000 on. *)
Lemma decimal_four_digits y :
  1000 <= y <= 9999 -> decimal y = four_digits y.
Proof.
  intros Hy. apply String.eqb_eq.
  apply (all_from_spec
           (fun k => String.eqb (decimal k) (four_digits k))
           (Z.to_nat 9000) 1000);
    [vm_compute; reflexivity | lia].
Qed.

Lemma valid_fields dt :
  valid dt = true ->
  0 <= day dt <= 99 /\ 0 <= hour dt <= 99 /\ 0 <= minute dt <= 99
  /\ 1 <= year dt <= 9999.
Proof.
  unfold valid. rewrite !andb_true_iff, !Z.leb_le.
  assert (days_in_month (year dt) (month dt) <= 31).
  { unfold days_in_month.
    destruct ((month dt =? 2) && is_leap (year dt)); [lia |].
    unfold DAYS_IN_MONTH. generalize (Z.to_nat (month dt)). intros k.
    do 13 (destruct k as [|k]; [simpl; lia |]).
    destruct k; simpl; lia. }
  lia.
Qed.

Lemma append_empty_r (s : string) : s +:+ "" = s.
Proof.
  induction s as [|a s IH]; [reflexivity |].
  change (String a (s +:+ "") = String a s). now rewrite IH.
Qed.

(** What the interpreter makes of the two format strings of the tag. *)
Lemma strftime_clock_directives dt :
  strftime "%H:%M" dt = zero_pad 2 (hour dt) +:+ ":" +:+ zero_pad 2 (minute dt).
Proof.
  transitivity
    (zero_pad 2 (hour dt) +:+ ":" +:+ zero_pad 2 (minute dt) +:+ "");
    [reflexivity | now rewrite append_empty_r].
Qed.

Lemma strftime_long_directives dt :
  strftime "%A, %d %B %Y %H:%M" dt
  = day_name (weekday dt) +:+ ", " +:+ zero_pad 2 (day dt) +:+ " "
    +:+ month_name (month dt) +:+ " " +:+ decimal (year dt) +:+ " "
    +:+ strftime "%H:%M" dt.
Proof. reflexivity. Qed.

Lemma strftime_clock dt :
  valid dt = true -> strftime "%H:%M" dt = clock_form dt.
Proof.
  intros Hv. destruct (valid_fields dt Hv) as (_ & Hh & Hm & _).
  rewrite strftime_clock_directives. unfold clock_form.
  now rewrite !zero_pad_two_digits by assumption.
Qed.

Lemma strftime_long dt :
  valid dt = true -> strftime "%A, %d %B %Y %H:%M" dt = long_form dt.
Proof.
  intros Hv. destruct (valid_fields dt Hv) as (Hd & _).
  rewrite strftime_long_directives, strftime_clock by assumption.
  unfold long_form. now rewrite zero_pad_two_digits by assumption.
Qed.

Variable localtime : datetime -> datetime.

(** C8. The range of an occurrence is written "Weekday, DD Month YYYY
    HH:MM - HH:MM" when its local start and end have the same day, month
    and year, and "Weekday, DD Month YYYY HH:MM - Weekday, DD Month YYYY
    HH:MM" when they have not; the year takes four digits from the year
    1000 on. *)
Theorem occurrence_duration_format o :
  valid (localtime (start_time o)) = true ->
  valid (localtime (end_time o)) = true ->
  (same_calendar_day (localtime (start_time o)) (localtime (end_time o)) ->
   occurrence_duration localtime o
   = long_form (localtime (start_time o)) +:+ " - "
     +:+ clock_form (localtime (end_time o)))
  /\ (~ same_calendar_day (localtime (start_time o))
                          (localtime (end_time o)) ->
      occurrence_duration localtime o
      = long_form (localtime (start_time o)) +:+ " - "
        +:+ long_form (localtime (end_time o)))
  /\ (forall dt, valid dt = true -> 1000 <= year dt ->
        decimal (year dt) = four_digits (year dt)).
Proof.
  intros Hs He. unfold occurrence_duration, format_datetime.
  rewrite !strftime_long, strftime_clock by assumption.
  unfold same_calendar_day. split; [| split].
  - intros (Hd & Hm & Hy). rewrite Hd, Hm, Hy, !Z.eqb_refl. reflexivity.
  - intros Hdiff.
    destruct (day _ =? day _) eqn:Ed; [| reflexivity].
    destruct (month _ =? month _) eqn:Em; [| reflexivity].
    destruct (year _ =? year _) eqn:Ey; [| reflexivity].
    apply Z.eqb_eq in Ed, Em, Ey. tauto.
  - intros dt Hv Hy. apply decimal_four_digits.
    destruct (valid_fields dt Hv) as (_ & _ & _ & Hyear). lia.
Qed.

End Formatting.

(** C1, at a rule with a frequency, an interval and a weekday filter. *)
Lemma add_occurrences_unbounded_single_witness :
  weekly_unbounded !! "count" = None
  /\ weekly_unbounded !! "until" = None
  /\ add_occurrences rrule_plain borrel jan01_0900 jan01_1000
       weekly_unbounded [early]
     = ([early; mkOccurrence None jan01_0900 jan01_1000 borrel], None).
Proof.
  split; [reflexivity |]. split; [reflexivity |].
  apply (add_occurrences_unbounded_single rrule_plain borrel jan01_0900
           jan01_1000 weekly_unbounded [early]); reflexivity.
Defined.

(** C3, at [{count: 3}] from 2024-01-01 09:00 to 10:00 and the plain-rule
    instance: the three days come out. *)
Lemma add_occurrences_count_witness :
  plain jan01_0900 (setdefault "freq" (PyInt DAILY) count3)
    = Some (rrule_plain jan01_0900 (setdefault "freq" (PyInt DAILY) count3))
  /\ fits (replace_microsecond jan01_0900 0) (sub jan01_1000 jan01_0900) 3
       (1 * US_PER_DAY)
  /\ counted 3 (sub jan01_1000 jan01_0900) []
       (add_occurrences rrule_plain borrel jan01_0900 jan01_1000 count3 []).
Proof.
  assert (Hplain :
    plain jan01_0900 (setdefault "freq" (PyInt DAILY) count3)
    = Some (rrule_plain jan01_0900 (setdefault "freq" (PyInt DAILY) count3))).
  { vm_compute. reflexivity. }
  assert (Hfits : fits (replace_microsecond jan01_0900 0)
                    (sub jan01_1000 jan01_0900) 3 (1 * US_PER_DAY)).
  { split; vm_compute; discriminate. }
  split; [exact Hplain |]. split; [exact Hfits |].
  destruct (add_occurrences_count borrel jan01_0900 jan01_1000 count3 [] 3)
    as [_ Hplainrules]; [reflexivity | lia | reflexivity |].
  destruct (Hplainrules rrule_plain DAILY US_PER_DAY 1) as [_ Hcounted];
    [exact Hplain | reflexivity | reflexivity | reflexivity | reflexivity |].
  exact (Hcounted Hfits).
Defined.

(** C3, as stated, fails at the end of the calendar.  [{count: 5}] from
    9999-12-30 12:00 to 13:00 gives two occurrences and no error: the
    library stops when the year would pass 9999.  [{count: 2}] from
    9999-12-30 12:00 to 9999-12-31 11:00 gives one occurrence and
    [OverflowError]: the end of the second is out of range. *)
Lemma add_occurrences_count_counterexample :
  (count5 !! "count" = Some (PyInt 5)
   /\ count5 !! "until" = None
   /\ add_occurrences rrule_plain borrel dec30_noon dec30_1300 count5 []
      = ([mkOccurrence None dec30_noon dec30_1300 borrel;
          mkOccurrence None dec31_noon dec31_1300 borrel], None)
   /\ ~ counted 5 (sub dec30_1300 dec30_noon) []
          (add_occurrences rrule_plain borrel dec30_noon dec30_1300 count5 []))
  /\ (count2 !! "count" = Some (PyInt 2)
      /\ count2 !! "until" = None
      /\ add_occurrences rrule_plain borrel dec30_noon dec31_1100 count2 []
         = ([mkOccurrence None dec30_noon dec31_1100 borrel],
            Some OverflowError)
      /\ ~ counted 2 (sub dec31_1100 dec30_noon) []
             (add_occurrences rrule_plain borrel dec30_noon dec31_1100
                count2 [])).
Proof.
  assert (H5 :
    add_occurrences rrule_plain borrel dec30_noon dec30_1300 count5 []
    = ([mkOccurrence None dec30_noon dec30_1300 borrel;
        mkOccurrence None dec31_noon dec31_1300 borrel], None))
    by (vm_compute; reflexivity).
  assert (H2 :
    add_occurrences rrule_plain borrel dec30_noon dec31_1100 count2 []
    = ([mkOccurrence None dec30_noon dec31_1100 borrel], Some OverflowError))
    by (vm_compute; reflexivity).
  split; (split; [reflexivity |]; split; [reflexivity |]).
  - split; [exact H5 |]. rewrite H5.
    intros (created & [= <-] & Hlen & _). discriminate.
  - split; [exact H2 |]. rewrite H2.
    intros (created & Hout & _). discriminate.
Qed.

(** C4, as stated, fails.  An unrecognised frequency without [count] and
    [until] gives one occurrence and no error, whatever the library; and the
    specification's own example, [{count: 3, until: 2024-02-01}] from
    2024-01-01 09:00 to 10:00, gives three occurrences and no error with the
    plain-rule instance. *)
Lemma add_occurrences_invalid_rule_counterexample :
  add_occurrences rrule_plain borrel jan01_0900 jan01_1000 freq99 []
    = ([mkOccurrence None jan01_0900 jan01_1000 borrel], None)
  /\ add_occurrences rrule_plain borrel jan01_0900 jan01_1000 count3_until []
     = ([mkOccurrence None jan01_0900 jan01_1000 borrel;
         mkOccurrence None (mkdatetime 2024 1 2 9 0 0 0)
           (mkdatetime 2024 1 2 10 0 0 0) borrel;
         mkOccurrence None (mkdatetime 2024 1 3 9 0 0 0)
           (mkdatetime 2024 1 3 10 0 0 0) borrel], None).
Proof. split; vm_compute; reflexivity. Qed.

(** C4 as amended, at an unrecognised frequency: without a bound, one
    occurrence and no error; with a count, the plain-rule instance fails
    with [KeyError], which is what the caller gets. *)
Lemma add_occurrences_library_error_witness :
  add_occurrences rrule_plain borrel jan01_0900 jan01_1000 freq99 [early]
    = ([early; mkOccurrence None jan01_0900 jan01_1000 borrel], None)
  /\ (is_Some (freq99_count !! "count") \/ is_Some (freq99_count !! "until"))
  /\ rrule_plain jan01_0900 (setdefault "freq" (PyInt DAILY) freq99_count)
     = mkiteration [] (Some KeyError)
  /\ add_occurrences rrule_plain borrel jan01_0900 jan01_1000 freq99_count
       [early] = ([early], Some KeyError).
Proof.
  assert (Hc : is_Some (freq99_count !! "count")
               \/ is_Some (freq99_count !! "until")).
  { left. exists (PyInt 2). reflexivity. }
  assert (Hit : rrule_plain jan01_0900
                  (setdefault "freq" (PyInt DAILY) freq99_count)
                = mkiteration [] (Some KeyError)).
  { vm_compute. reflexivity. }
  split; [| split; [exact Hc | split; [exact Hit |]]].
  - apply (proj1 (add_occurrences_library_error rrule_plain borrel
                    jan01_0900 jan01_1000 freq99 [early])); reflexivity.
  - exact (proj2 (add_occurrences_library_error rrule_plain borrel
                    jan01_0900 jan01_1000 freq99_count [early])
             KeyError Hc Hit).
Defined.

(** C6, at the occurrences of March: [early] starts exactly at the
    reference time and is in; from a second later it is out. *)
Lemma upcoming_reference_time_witness :
  In early (fetch (upcoming objects march (Some (start_time early)) None))
  /\ ~ In early
       (fetch (upcoming objects march
                 (Some (mkdatetime 2024 3 5 20 0 1 0)) None)).
Proof.
  split.
  - apply (proj1 (upcoming_reference_time objects march (start_time early)
                    early)).
    + apply stored_objects. right. left. reflexivity.
    + reflexivity.
  - apply (proj1 (proj2 (upcoming_reference_time objects march
                           (mkdatetime 2024 3 5 20 0 1 0) early))).
    reflexivity.
Defined.

(** C5, the example of the specification: on 2024-03-15 the spanning and
    the morning occurrence are returned, the one of the next day is not. *)
Example daily_occurrences_example :
  fetch (daily_occurrences objects ides (Some mar15) None)
    = [spanning; morning]
  /\ fetch (daily_occurrences objects ides (Some mar15) (Some borrel))
     = [morning]
  /\ fetch (daily_occurrences objects ides None None) = [spanning; morning].
Proof. repeat split; vm_compute; reflexivity. Qed.

(** C7, at a timestamp and a date of the same day. *)
Lemma daily_occurrences_date_only_witness :
  daily_occurrences objects ides (Some (a_datetime mar15_1742)) None
  = daily_occurrences objects ides (Some mar15) None.
Proof.
  apply (proj2 (daily_occurrences_date_only objects ides None)
           (a_datetime mar15_1742) mar15); reflexivity.
Defined.

(** C9, at an occurrence with a description and at one with an empty one. *)
Lemma title_of_occurrence_witness :
  title morning = "Borrel (Utrecht)" /\ title next_day = "Borrel".
Proof.
  split.
  - apply (proj2 (title_of_occurrence morning) "Utrecht");
      [reflexivity | discriminate].
  - apply (proj1 (title_of_occurrence next_day)). right. reflexivity.
Defined.

(** C10, at the clock of [ides] (2024-03-15 17:42:07): the spanning
    occurrence has not ended, the morning one has. *)
Lemma in_past_iff_not_ended_witness :
  in_past ides spanning = true /\ in_past ides morning = false.
Proof.
  split.
  - apply (proj1 (in_past_iff_not_ended ides spanning)). reflexivity.
  - apply (proj2 (in_past_iff_not_ended ides morning)). reflexivity.
Defined.

(** C8, one hour east of the stored times: [morning] stays within its day,
    [overnight] does not. *)
Lemma occurrence_duration_format_witness :
  occurrence_duration plus_one_hour morning
    = "Friday, 15 March 2024 09:00 - 10:00"
  /\ occurrence_duration plus_one_hour overnight
     = "Friday, 15 March 2024 22:30 - Saturday, 16 March 2024 02:05".
Proof.
  split.
  - etransitivity.
    + apply (proj1 (occurrence_duration_format plus_one_hour morning
                      eq_refl eq_refl)).
      repeat split.
    + reflexivity.
  - etransitivity.
    + apply (proj1 (proj2 (occurrence_duration_format plus_one_hour
                             overnight eq_refl eq_refl))).
      intros (Hd & _). discriminate Hd.
    + reflexivity.
Defined.

(* ===================================================================== *)
(** ** Further properties *)
(* ===================================================================== *)

(** *** More on the order of datetimes *)

Section OrderMore.

Lemma coherent_Z x y z : coherent (x ?= y) (y ?= z) (x ?= z).
Proof.
  unfold coherent.
  destruct (Z.compare_spec x y), (Z.compare_spec y z), (Z.compare_spec x z);
    repeat split; intros; try congruence; lia.
Qed.

Lemma coherent_lex a1 a2 a3 b1 b2 b3 :
  coherent a1 a2 a3 -> coherent b1 b2 b3 ->
  coherent (lex a1 b1) (lex a2 b2) (lex a3 b3).
Proof.
  unfold coherent. intros (A1 & A2 & A3 & A4) (B1 & B2 & B3 & B4).
  destruct a1, a2; simpl;
    try (rewrite (A1 eq_refl)); try (rewrite (A2 eq_refl));
    try (rewrite (A3 eq_refl eq_refl)); try (rewrite (A4 eq_refl eq_refl));
    simpl; repeat split; intros; try congruence; auto;
    destruct a3; simpl in *; try congruence.
Qed.

Lemma cmp_coherent a b c : coherent (cmp a b) (cmp b c) (cmp a c).
Proof. unfold cmp. repeat apply coherent_lex; apply coherent_Z. Qed.

Lemma lt_trans a b c : lt a b -> lt b c -> lt a c.
Proof. unfold lt. intros H1 H2. now apply (cmp_coherent a b c). Qed.

Lemma le_trans a b c : le a b -> le b c -> le a c.
Proof.
  unfold le. intros H1 H2 H3.
  destruct (cmp_coherent a b c) as (E1 & E2 & _ & G).
  destruct (cmp a b) eqn:Eab; [| | congruence].
  - rewrite (E1 eq_refl) in H3. congruence.
  - destruct (cmp b c) eqn:Ebc; [| | congruence].
    + rewrite (E2 eq_refl) in H3. congruence.
    + destruct (cmp_coherent a b c) as (_ & _ & L & _).
      rewrite Eab, Ebc in L. rewrite (L eq_refl eq_refl) in H3. congruence.
Qed.

Lemma le_total a b : le a b \/ le b a.
Proof.
  unfold le. rewrite (cmp_antisym a b).
  destruct (cmp a b); simpl; [left | left | right]; congruence.
Qed.

Lemma not_le_lt a b : ~ le a b <-> lt b a.
Proof.
  unfold le, lt. rewrite (cmp_antisym a b).
  destruct (cmp a b); simpl; intuition congruence.
Qed.

Lemma ordering_leb_cmp a b :
  ordering_leb a b = true <-> ordering_cmp a b <> Gt.
Proof.
  unfold ordering_leb, ordering_cmp, leb.
  destruct (cmp (start_time a) (start_time b)); simpl;
    [destruct (cmp (end_time a) (end_time b)) | |]; intuition congruence.
Qed.

Lemma ordering_cmp_coherent a b c :
  coherent (ordering_cmp a b) (ordering_cmp b c) (ordering_cmp a c).
Proof. apply coherent_lex; apply cmp_coherent. Qed.

#[local] Instance ordering_trans : Transitive ordering.
Proof.
  intros a b c. unfold ordering. rewrite !Is_true_true, !ordering_leb_cmp.
  intros H1 H2 H3.
  destruct (ordering_cmp_coherent a b c) as (E1 & E2 & _ & G).
  destruct (ordering_cmp a b) eqn:Eab; [| | congruence].
  - rewrite (E1 eq_refl) in H3. congruence.
  - destruct (ordering_cmp b c) eqn:Ebc; [| | congruence].
    + rewrite (E2 eq_refl) in H3. congruence.
    + destruct (ordering_cmp_coherent a b c) as (_ & _ & L & _).
      rewrite Eab, Ebc in L. rewrite (L eq_refl eq_refl) in H3. congruence.
Qed.

Lemma ordering_start a b : ordering a b -> le (start_time a) (start_time b).
Proof.
  unfold ordering, ordering_leb, le. rewrite Is_true_true.
  destruct (cmp (start_time a) (start_time b)); congruence.
Qed.

(** What is fetched is in the order of the model, each row before all the
    rows after it. *)
Lemma fetch_strongly_sorted qs : StronglySorted ordering (fetch qs).
Proof. apply Sorted_StronglySorted; [apply _ | apply fetch_sorted]. Qed.

End OrderMore.

(** *** More on the occurrence queries *)

Section QueriesMore.

(** Membership in [daily_occurrences], condition by condition. *)
Lemma In_daily self c dt ev o :
  In o (fetch (daily_occurrences self c dt ev)) <->
  In o (fetch (get_queryset self c))
  /\ (within (start_time o) (or_else dt (a_datetime (datetime_now c)))
      \/ within (end_time o) (or_else dt (a_datetime (datetime_now c)))
      \/ spans o (or_else dt (a_datetime (datetime_now c))))
  /\ owned_by ev o.
Proof.
  set (D := or_else dt (a_datetime (datetime_now c))).
  unfold daily_occurrences, filter_kw. fold D.
  change (datetime_ymd (year_of D) (month_of D) (day_of D)) with (midnight D).
  change (replace_hms (midnight D) 23 59 59) with (last_second D).
  destruct ev as [e |]; simpl owned_by;
    rewrite ?In_fetch_filter_q; simpl; unfold within, spans;
    rewrite ?orb_true_iff, ?andb_true_iff, ?geb_le, ?leb_le, ?ltb_lt,
      ?gtb_lt, ?Z.eqb_eq; tauto.
Qed.

Lemma In_site_related c o :
  In o (fetch (get_queryset site_related c)) <->
  In o (table c) /\ event_site (event o) = current_site_id c.
Proof.
  unfold get_queryset, filter_kw. rewrite In_fetch_filter_q, fetch_all.
  simpl. now rewrite andb_true_r, Z.eqb_eq.
Qed.

(** X1. Moving the reference time of [upcoming] later never brings in an
    occurrence: what is upcoming from [T2] is upcoming from any earlier
    [T1]. *)
Theorem upcoming_later_reference self c T1 T2 e1 e2 o :
  le T1 T2 ->
  In o (fetch (upcoming self c (Some T2) e2)) ->
  In o (fetch (upcoming self c (Some T1) e1)).
Proof.
  intros Hle. rewrite !In_upcoming. simpl. intros [Hin H2].
  split; [exact Hin |]. exact (le_trans _ _ _ Hle H2).
Qed.

(** X2. The site-scoped manager gives, for [upcoming] and for
    [daily_occurrences] alike, exactly the occurrences the plain manager
    gives whose event is on the current site. *)
Theorem site_related_restricts c o :
  (forall start end_,
     In o (fetch (upcoming site_related c start end_)) <->
     In o (fetch (upcoming objects c start end_))
     /\ event_site (event o) = current_site_id c)
  /\ (forall dt ev,
        In o (fetch (daily_occurrences site_related c dt ev)) <->
        In o (fetch (daily_occurrences objects c dt ev))
        /\ event_site (event o) = current_site_id c).
Proof.
  split.
  - intros start end_. rewrite !In_upcoming, In_site_related, stored_objects.
    tauto.
  - intros dt ev. rewrite !In_daily, In_site_related, stored_objects. tauto.
Qed.

(** X3. For an occurrence that does not end before it starts, the three
    conditions of [daily_occurrences] together are plain overlap: the
    occurrence starts no later than 23:59:59 of the day and ends no earlier
    than its midnight. *)
Theorem daily_occurrences_is_overlap self c dt ev o :
  le (start_time o) (end_time o) ->
  (In o (fetch (daily_occurrences self c dt ev)) <->
   In o (fetch (get_queryset self c))
   /\ le (start_time o) (last_second (or_else dt (a_datetime (datetime_now c))))
   /\ le (midnight (or_else dt (a_datetime (datetime_now c)))) (end_time o)
   /\ owned_by ev o).
Proof.
  intros Hse. rewrite In_daily.
  set (D := or_else dt (a_datetime (datetime_now c))).
  unfold within, spans.
  assert (Hcases :
    (le (midnight D) (start_time o) /\ le (start_time o) (last_second D))
    \/ (le (midnight D) (end_time o) /\ le (end_time o) (last_second D))
    \/ (lt (start_time o) (midnight D) /\ lt (last_second D) (end_time o))
    <-> le (start_time o) (last_second D) /\ le (midnight D) (end_time o)).
  { split.
    - intros [[H1 H2] | [[H1 H2] | [H1 H2]]].
      + split; [exact H2 | exact (le_trans _ _ _ H1 Hse)].
      + split; [exact (le_trans _ _ _ Hse H2) | exact H1].
      + split.
        * apply le_lt_or_eq. left.
          apply (lt_trans _ (midnight D)); [exact H1 |].
          unfold lt, midnight, last_second, cmp. simpl.
          now rewrite !Z.compare_refl.
        * apply le_lt_or_eq. left.
          apply (lt_trans _ (last_second D)); [| exact H2].
          unfold lt, midnight, last_second, cmp. simpl.
          now rewrite !Z.compare_refl.
    - intros [H1 H2].
      destruct (le_total (midnight D) (start_time o)) as [Hs | Hs];
        [left; now split |].
      destruct (le_total (end_time o) (last_second D)) as [He | He];
        [right; left; now split |].
      destruct (proj1 (le_lt_or_eq _ _) Hs) as [Hlt | Heq];
        [| left; split; [rewrite Heq; apply le_refl | exact H1]].
      destruct (proj1 (le_lt_or_eq _ _) He) as [Hlt' | Heq'];
        [| right; left; split; [exact H2 | rewrite <- Heq'; apply le_refl]].
      right. right. now split. }
  rewrite Hcases. tauto.
Qed.

End QueriesMore.

Section QueriesDays.

(** A valid whole-second time lies in the window of its own day. *)
Lemma within_own_day t :
  valid t = true -> microsecond t = 0 -> within t (a_datetime t).
Proof.
  unfold valid. rewrite !andb_true_iff, !Z.leb_le.
  intros Hv Hus. unfold within, le, midnight, last_second, cmp.
  cbn [year month day hour minute second microsecond
       year_of month_of day_of].
  rewrite !Z.compare_refl, Hus. cbn [lex].
  split.
  - destruct (Z.compare_spec 0 (hour t)); cbn [lex]; try congruence;
      try lia.
    destruct (Z.compare_spec 0 (minute t)); cbn [lex]; try congruence;
      try lia.
    destruct (Z.compare_spec 0 (second t)); simpl; try congruence; lia.
  - destruct (Z.compare_spec (hour t) 23); cbn [lex]; try congruence;
      try lia.
    destruct (Z.compare_spec (minute t) 59); cbn [lex]; try congruence;
      try lia.
    destruct (Z.compare_spec (second t) 59); simpl; try congruence; lia.
Qed.

(** X4. An occurrence of the manager is found by [daily_occurrences] on the
    day of its start when the start is a valid whole-second time, and on the
    day of its end when the end is. *)
Theorem daily_occurrences_own_days self c ev o :
  In o (fetch (get_queryset self c)) ->
  owned_by ev o ->
  (valid (start_time o) = true -> microsecond (start_time o) = 0 ->
   In o (fetch (daily_occurrences self c
                  (Some (a_datetime (start_time o))) ev)))
  /\ (valid (end_time o) = true -> microsecond (end_time o) = 0 ->
      In o (fetch (daily_occurrences self c
                     (Some (a_datetime (end_time o))) ev))).
Proof.
  intros Hin Hown. split; intros Hv Hus; apply In_daily; simpl or_else;
    (split; [exact Hin | split; [| exact Hown]]).
  - left. now apply within_own_day.
  - right. left. now apply within_own_day.
Qed.

(** A time past 23:59:59 sharp in the last second of its day is in the
    window of no day, before the midnight of the later days only, and after
    the last second of its own and the earlier days only. *)
Lemma after_last_second_day t D :
  after_last_second t ->
  ~ within t D /\ ~ (lt t (midnight D) /\ lt (last_second D) t).
Proof.
  intros (Hh & Hmi & Hs & Hus).
  assert (Hgt : (microsecond t ?= 0) = Gt) by (apply Z.compare_gt_iff; lia).
  assert (Hlt : (0 ?= microsecond t) = Lt) by (apply Z.compare_lt_iff; lia).
  unfold within, le, lt, midnight, last_second, cmp.
  cbn [year month day hour minute second microsecond].
  rewrite Hh, Hmi, Hs, Hgt, Hlt.
  rewrite (Z.compare_antisym (year t) (year_of D)),
          (Z.compare_antisym (month t) (month_of D)),
          (Z.compare_antisym (day t) (day_of D)).
  destruct (year t ?= year_of D), (month t ?= month_of D),
    (day t ?= day_of D); simpl; split; intros [H1 H2]; congruence.
Qed.

(** X5. An occurrence that starts and ends within the last second of one
    day, past 23:59:59 sharp, is found by [daily_occurrences] on no day at
    all: the window of a day closes at 23:59:59.000000. *)
Theorem daily_occurrences_misses_last_second self c dt ev o :
  same_date (start_time o) (end_time o) ->
  after_last_second (start_time o) ->
  after_last_second (end_time o) ->
  ~ In o (fetch (daily_occurrences self c dt ev)).
Proof.
  intros (Hy & Hm & Hd) Hs He Hin. apply In_daily in Hin.
  destruct Hin as (_ & Hcond & _).
  set (D := or_else dt (a_datetime (datetime_now c))) in *.
  destruct (after_last_second_day _ D Hs) as [Hws _].
  destruct (after_last_second_day _ D He) as [Hwe Hspan_e].
  destruct Hcond as [H | [H | [H1 H2]]]; [tauto | tauto |].
  apply Hspan_e. split; [| exact H2].
  destruct Hs as (Hh & Hmi & Hsec & Hus).
  destruct He as (Hh' & Hmi' & Hsec' & Hus').
  revert H1. unfold lt, midnight, cmp.
  cbn [year month day hour minute second microsecond].
  rewrite Hy, Hm, Hd, Hh, Hmi, Hsec, Hh', Hmi', Hsec'.
  destruct (year (end_time o) ?= year_of D),
    (month (end_time o) ?= month_of D),
    (day (end_time o) ?= day_of D); simpl; congruence.
Qed.

(** What [Event.upcoming_occurrences] fetches. *)
Lemma In_upcoming_occurrences e c o :
  In o (fetch (upcoming_occurrences e c)) <->
  In o (table c) /\ of_event e o /\ le (datetime_now c) (start_time o).
Proof.
  unfold upcoming_occurrences, occurrence_set, filter_kw, of_event.
  rewrite !In_fetch_filter_q, stored_objects. simpl.
  rewrite !andb_true_r, Z.eqb_eq, geb_le. tauto.
Qed.

(** X6. [Event.next_occurrence] is [None] exactly when every occurrence of
    the event starts before now; otherwise it is an occurrence of the event
    that starts now or later, and no other such occurrence starts
    earlier. *)
Theorem next_occurrence_earliest e c :
  (next_occurrence e c = None <->
   forall o, In o (table c) -> of_event e o ->
             lt (start_time o) (datetime_now c))
  /\ (forall o, next_occurrence e c = Some o ->
        In o (table c) /\ of_event e o
        /\ le (datetime_now c) (start_time o)
        /\ forall o', In o' (table c) -> of_event e o' ->
                      le (datetime_now c) (start_time o') ->
                      le (start_time o) (start_time o')).
Proof.
  unfold next_occurrence.
  pose proof (fetch_strongly_sorted (upcoming_occurrences e c)) as Hsorted.
  pose proof (In_upcoming_occurrences e c) as Hin.
  destruct (fetch (upcoming_occurrences e c)) as [|first rest]; simpl.
  - split; [| discriminate]. split; [| reflexivity].
    intros _ o Ho He. apply not_le_lt. intros Hle.
    apply (proj2 (Hin o)). now repeat split.
  - split.
    + split; [discriminate |]. intros Hall. exfalso.
      destruct (proj1 (Hin first) (or_introl eq_refl)) as (Ht & He & Hle).
      exact (proj2 (not_le_lt _ _) (Hall first Ht He) Hle).
    + intros o [= <-].
      destruct (proj1 (Hin first) (or_introl eq_refl)) as (Ht & He & Hle).
      repeat split; try assumption.
      intros o' Ht' He' Hle'.
      destruct (proj2 (Hin o') (conj Ht' (conj He' Hle'))) as [<- | Hrest];
        [apply le_refl |].
      apply StronglySorted_inv in Hsorted as [_ Hall].
      rewrite Forall_forall in Hall.
      apply ordering_start, Hall, list_elem_of_In, Hrest.
Qed.

(** X7. [Occurrence.__lt__] is a strict order on occurrences that goes with
    the order of the table: nothing is before itself, before is transitive,
    and what is before sorts before and not after. *)
Theorem occurrence_lt_strict a b c :
  occurrence_lt a a = false
  /\ (occurrence_lt a b = true -> occurrence_lt b c = true ->
      occurrence_lt a c = true)
  /\ (occurrence_lt a b = true -> ordering a b /\ ~ ordering b a).
Proof.
  unfold occurrence_lt. split; [| split].
  - unfold ltb. now rewrite cmp_refl.
  - rewrite !ltb_lt. apply lt_trans.
  - rewrite ltb_lt. unfold lt, ordering, ordering_leb. intros H.
    rewrite (cmp_antisym (start_time a) (start_time b)), H. simpl.
    split; [exact I | tauto].
Qed.

End QueriesDays.

(** *** More on the recurrence expander *)

Section ExpanderMore.

Variable rrule : rrule_impl.

(** Whatever it is given, the loop only appends rows of the event, without
    a description. *)
Lemma create_each_appends self delta evs : forall db,
  exists created,
    fst (create_each self delta evs db) = db ++ created
    /\ Forall (fun o => event o = self /\ description o = None) created
    /\ (length created <= length evs)%nat.
Proof.
  induction evs as [|ev rest IH]; intros db.
  - exists []. simpl. rewrite app_nil_r. repeat split; [constructor | lia].
  - simpl. destruct (add ev delta) as [e |].
    + destruct (IH (create self ev e db)) as (created & Hrun & Hall & Hlen).
      exists (mkOccurrence None ev e self :: created).
      rewrite Hrun. unfold create. rewrite <- app_assoc.
      repeat split; [| simpl; lia].
      constructor; [now split | exact Hall].
    + exists []. simpl. rewrite app_nil_r.
      repeat split; [constructor | lia].
Qed.

Lemma fst_match_create_each (r : list Occurrence * option exn) (x : option exn) :
  fst (match r with
       | (db', Some e) => (db', Some e)
       | (db', None) => (db', x)
       end) = fst r.
Proof. destruct r as [db' [e |]]; reflexivity. Qed.

(** The table after [add_occurrences] is the one before with rows of the
    event put behind it. *)
Lemma add_occurrences_appends self s e params db :
  exists created,
    fst (add_occurrences rrule self s e params db) = db ++ created
    /\ Forall (fun o => event o = self /\ description o = None) created.
Proof.
  unfold add_occurrences.
  destruct (negb _ && negb _).
  - exists [mkOccurrence None s e self]. split; [reflexivity |].
    constructor; [now split | constructor].
  - rewrite fst_match_create_each.
    destruct (create_each_appends self (sub e s)
                (yielded (rrule s (setdefault "freq" (PyInt DAILY) params)))
                db) as (created & Hrun & Hall & _).
    exists created. now split.
Qed.

(** X8. [add_occurrences] never removes or changes a row that was there,
    whatever the rule and the library and whether it fails or not: the
    table it leaves is the old one followed by new rows, all of the event
    and without a description. *)
Theorem add_occurrences_only_appends self s e params db :
  exists created,
    fst (add_occurrences rrule self s e params db) = db ++ created
    /\ Forall (fun o => event o = self /\ description o = None) created.
Proof. apply add_occurrences_appends. Qed.

Lemma bounded_branch params :
  is_Some (params !! "count") \/ is_Some (params !! "until") ->
  negb (contains "count" (setdefault "freq" (PyInt DAILY) params))
  && negb (contains "until" (setdefault "freq" (PyInt DAILY) params))
  = false.
Proof.
  intros Hb. rewrite !contains_setdefault_ne by discriminate.
  rewrite <- !contains_true in Hb.
  destruct Hb as [-> | ->]; simpl; [reflexivity | apply andb_false_r].
Qed.

(** X9. Nothing is rolled back: when the library fails after yielding some
    values, the occurrences of those values stay in the table and the
    library's exception reaches the caller. *)
Theorem add_occurrences_keeps_partial self s e params db evs err :
  is_Some (params !! "count") \/ is_Some (params !! "until") ->
  rrule s (setdefault "freq" (PyInt DAILY) params)
    = mkiteration evs (Some err) ->
  Forall (fun ev => is_Some (add ev (sub e s))) evs ->
  exists created,
    add_occurrences rrule self s e params db = (db ++ created, Some err)
    /\ map start_time created = evs
    /\ Forall (made self (sub e s)) created.
Proof.
  intros Hb Hit Hall. unfold add_occurrences.
  rewrite (bounded_branch params Hb), Hit. simpl.
  destruct (create_each_all self (sub e s) evs db Hall)
    as (created & Hrun & Hst & Hmade).
  exists created. now rewrite Hrun.
Qed.

(** X10. The first yielded value whose end is past the last representable
    date stops the expansion with [OverflowError]: the occurrences before
    it stay, none is made of it or of the values after it, and whatever the
    library would have raised later is not seen. *)
Theorem add_occurrences_overflow self s e params db evs ev rest r :
  is_Some (params !! "count") \/ is_Some (params !! "until") ->
  rrule s (setdefault "freq" (PyInt DAILY) params)
    = mkiteration (evs ++ ev :: rest) r ->
  Forall (fun ev => is_Some (add ev (sub e s))) evs ->
  add ev (sub e s) = None ->
  exists created,
    add_occurrences rrule self s e params db
      = (db ++ created, Some OverflowError)
    /\ map start_time created = evs.
Proof.
  intros Hb Hit Hall Hov. unfold add_occurrences.
  rewrite (bounded_branch params Hb), Hit. simpl.
  destruct (create_each_overflow self (sub e s) evs ev rest db Hall Hov)
    as (created & Hrun & Hst).
  exists created. now rewrite Hrun.
Qed.

End ExpanderMore.

(** *** The legend of sites *)

Section LegendProperties.

Lemma site_names_snoc sites s :
  site_names (sites ++ [s]) = <[site_id s := site_name s]> (site_names sites).
Proof. unfold site_names. now rewrite foldl_app. Qed.

(** An id is in [sites] exactly when it is the id of a row. *)
Lemma site_names_None sites i :
  site_names sites !! i = None <-> forall s, In s sites -> site_id s <> i.
Proof.
  induction sites as [|s sites IH] using rev_ind.
  - split; [intros _ s [] | reflexivity].
  - rewrite site_names_snoc. split.
    + intros H s' Hin Heq. rewrite lookup_insert in H.
      destruct (decide (site_id s = i)) as [| Hne]; [discriminate |].
      apply in_app_or in Hin as [Hin | [<- | []]]; [| contradiction].
      exact (proj1 IH H s' Hin Heq).
    + intros H. rewrite lookup_insert_ne.
      * apply IH. intros s' Hin. apply H, in_or_app. now left.
      * apply H, in_or_app. right. now left.
Qed.

(** With ids that are keys, an id bears the name of its row. *)
Lemma site_names_Some sites i n :
  NoDup (map site_id sites) ->
  (site_names sites !! i = Some n <->
   exists s, In s sites /\ site_id s = i /\ site_name s = n).
Proof.
  induction sites as [|s sites IH] using rev_ind; intros Hnd.
  - split; [discriminate | intros (s & [] & _)].
  - rewrite map_app in Hnd. simpl in Hnd.
    apply NoDup_app in Hnd as (Hnd & Hfresh & _).
    rewrite site_names_snoc, lookup_insert.
    destruct (decide (site_id s = i)) as [Heq | Hne].
    + split.
      * intros [= <-]. exists s. split; [apply in_or_app; right; now left |].
        now split.
      * intros (s' & Hin & Hid & Hname).
        apply in_app_or in Hin as [Hin | [<- | []]]; [| now rewrite Hname].
        exfalso. apply (Hfresh (site_id s')).
        -- apply list_elem_of_In, in_map, Hin.
        -- rewrite Hid, <- Heq. left.
    + rewrite (IH Hnd). split.
      * intros (s' & Hin & Hid & Hname). exists s'.
        split; [apply in_or_app; now left | now split].
      * intros (s' & Hin & Hid & Hname).
        apply in_app_or in Hin as [Hin | [<- | []]]; [| contradiction].
        exists s'. now repeat split.
Qed.

(** What the loop comes to: [KeyError] at an item whose id is no site's, or
    else the legend with, under each name, the entry of the last item of
    that name. *)
Lemma legend_loop_spec sites items : forall acc,
  match legend_loop sites items acc with
  | inl e =>
      e = KeyError
      /\ exists site color, In (site, color) items /\ sites !! site = None
  | inr l =>
      (forall site color, In (site, color) items -> is_Some (sites !! site))
      /\ forall name, l !! name = entry_of sites name items (acc !! name)
  end.
Proof.
  induction items as [|[site color] rest IH]; intros acc.
  - simpl. split; [intros ? ? [] | reflexivity].
  - simpl. destruct (sites !! site) as [name |] eqn:Hsite.
    + specialize (IH (<[name := legend_data color]> acc)).
      destruct (legend_loop sites rest _) as [e | l].
      * destruct IH as (-> & site' & color' & Hin & Hnone).
        split; [reflexivity |]. exists site', color'. split; [now right |].
        exact Hnone.
      * destruct IH as (Hall & Hentries). split.
        -- intros site' color' [[= <- <-] | Hin]; [rewrite Hsite; eauto |].
           exact (Hall _ _ Hin).
        -- intros name'. rewrite Hentries, lookup_insert.
           destruct (decide (name = name')) as [Heq | Hne];
             destruct (decide (Some name = Some name')) as [Heq' | Hne'];
             try reflexivity; congruence.
    + split; [reflexivity |]. exists site, color. split; [now left | exact Hsite].
Qed.

Lemma entry_of_inv sites name items : forall had data,
  entry_of sites name items had = Some data ->
  had = Some data
  \/ exists site color,
       In (site, color) items /\ sites !! site = Some name
       /\ data = legend_data color.
Proof.
  induction items as [|[site color] rest IH]; intros had data H.
  - now left.
  - simpl in H. apply IH in H as [H | (site' & color' & Hin & Hs & Hd)].
    + destruct (decide (sites !! site = Some name)) as [Hs |]; [| now left].
      right. exists site, color. injection H as <-.
      split; [now left | now split].
    + right. exists site', color'. split; [now right | now split].
Qed.

Lemma entry_of_last sites name items : forall had,
  (forall site color, In (site, color) items -> sites !! site <> Some name) ->
  entry_of sites name items had = had.
Proof.
  induction items as [|[site color] rest IH]; intros had Hno; [reflexivity |].
  simpl. destruct (decide (sites !! site = Some name)) as [Hs | _].
  - exfalso. exact (Hno site color (or_introl eq_refl) Hs).
  - apply IH. intros site' color' Hin. apply (Hno site' color'). now right.
Qed.

Lemma entry_of_app sites name pre post had :
  entry_of sites name (pre ++ post) had
  = entry_of sites name post (entry_of sites name pre had).
Proof.
  revert had. induction pre as [|[site color] pre IH]; intros had;
    [reflexivity | simpl; apply IH].
Qed.

Lemma entry_of_is_Some sites name items : forall had,
  is_Some (entry_of sites name items had) <->
  is_Some had
  \/ exists site color, In (site, color) items /\ sites !! site = Some name.
Proof.
  induction items as [|[site color] rest IH]; intros had; simpl.
  - split; [now left | intros [H | (? & ? & [] & _)]; exact H].
  - rewrite IH. destruct (decide (sites !! site = Some name)) as [Hs | Hs].
    + split; [| intros _; left; eauto].
      intros _. right. exists site, color. split; [now left | exact Hs].
    + split.
      * intros [H | (site' & color' & Hin & Hs')]; [now left |].
        right. exists site', color'. split; [now right | exact Hs'].
      * intros [H | (site' & color' & [[= <- <-] | Hin] & Hs')];
          [now left | contradiction |].
        right. exists site', color'. now split.
Qed.

Lemma events_site_legend_loop sites items :
  events_site_legend sites items
  = match legend_loop (site_names sites) items ∅ with
    | inl e => inl e
    | inr l => inr (mkLegendContext l)
    end.
Proof. reflexivity. Qed.

(** X11. [events_site_legend] fails exactly when the setting names an id
    that is the id of no site, and then with [KeyError]; otherwise it
    returns a legend. *)
Theorem events_site_legend_KeyError sites items :
  ((exists e, events_site_legend sites items = inl e) <->
   exists site color,
     In (site, color) items /\ forall s, In s sites -> site_id s <> site)
  /\ (forall e, events_site_legend sites items = inl e -> e = KeyError).
Proof.
  rewrite events_site_legend_loop.
  pose proof (legend_loop_spec (site_names sites) items ∅) as H.
  destruct (legend_loop (site_names sites) items ∅) as [e | l].
  - destruct H as (-> & site & color & Hin & Hnone). split.
    + split; [| eauto]. intros _. exists site, color. split; [exact Hin |].
      now apply site_names_None.
    + now intros e [= <-].
  - destruct H as [Hall _]. split; [| discriminate].
    split; [intros [e He]; discriminate |].
    intros (site & color & Hin & Hno). exfalso.
    apply site_names_None in Hno. destruct (Hall _ _ Hin) as [n Hn].
    congruence.
Qed.

(** X12. When it succeeds, the legend has an entry under exactly the names
    of the sites the setting lists (site ids being keys). *)
Theorem events_site_legend_names sites items ctx name :
  NoDup (map site_id sites) ->
  events_site_legend sites items = inr ctx ->
  (is_Some (legend ctx !! name) <->
   exists s color,
     In s sites /\ In (site_id s, color) items /\ site_name s = name).
Proof.
  intros Hnd. rewrite events_site_legend_loop.
  pose proof (legend_loop_spec (site_names sites) items ∅) as H.
  destruct (legend_loop (site_names sites) items ∅) as [e | l];
    [discriminate |].
  intros [= <-]. simpl. destruct H as [_ Hentries].
  rewrite Hentries, entry_of_is_Some, lookup_empty. split.
  - intros [[? H] | (site & color & Hin & Hs)]; [discriminate |].
    apply (site_names_Some _ _ _ Hnd) in Hs as (s & Hs & <- & Hname).
    exists s, color. now repeat split.
  - intros (s & color & Hs & Hin & Hname). right.
    exists (site_id s), color. split; [exact Hin |].
    apply (site_names_Some _ _ _ Hnd). exists s. now repeat split.
Qed.

(** X13. Entries go by site name, and the last one written stays: a site
    of the setting has the entry of its colour unless a later item of the
    setting is for a site of the same name. *)
Theorem events_site_legend_last_wins sites pre s color post ctx :
  NoDup (map site_id sites) ->
  In s sites ->
  events_site_legend sites (pre ++ (site_id s, color) :: post) = inr ctx ->
  (forall s' color', In s' sites -> In (site_id s', color') post ->
                     site_name s' <> site_name s) ->
  legend ctx !! site_name s = Some (legend_data color).
Proof.
  intros Hnd Hs. rewrite events_site_legend_loop.
  pose proof (legend_loop_spec (site_names sites)
                (pre ++ (site_id s, color) :: post) ∅) as H.
  destruct (legend_loop _ _ ∅) as [e | l]; [discriminate |].
  intros [= <-] Hlater. simpl. destruct H as [_ Hentries].
  rewrite Hentries, entry_of_app. simpl.
  assert (Hname : site_names sites !! site_id s = Some (site_name s)).
  { apply (site_names_Some _ _ _ Hnd). exists s. now repeat split. }
  destruct (decide _) as [_ | Hne]; [| contradiction].
  apply entry_of_last. intros site' color' Hin Hs'.
  apply (site_names_Some _ _ _ Hnd) in Hs' as (s' & Hs' & <- & Hname').
  exact (Hlater s' color' Hs' Hin Hname').
Qed.

Lemma dom_three bg text border : dom (three bg text border) = colour_keys.
Proof.
  unfold three, colour_keys. rewrite !dom_insert_L, dom_empty_L.
  set_solver.
Qed.

Lemma legend_data_keys color :
  dom (legend_data color) = colour_keys
  \/ (legend_data color = ∅
      /\ exists cs, color = color_seq cs /\ (length cs < 2)%nat).
Proof.
  destruct color as [c | cs]; simpl; [left; apply dom_three |].
  destruct (Nat.eqb_spec (length cs) 2); [left; apply dom_three |].
  destruct (Nat.ltb_spec 2 (length cs)); [left; apply dom_three |].
  right. split; [reflexivity |]. exists cs. split; [reflexivity | lia].
Qed.

(** X14. Every entry of a legend is the [data] of one of the colours of
    the setting, for a site of that name; it has the three keys
    [backgroundColor], [textColor] and [borderColor], or none at all when
    the colour is a sequence of fewer than two. *)
Theorem events_site_legend_entries sites items ctx name data :
  events_site_legend sites items = inr ctx ->
  legend ctx !! name = Some data ->
  exists site color,
    In (site, color) items
    /\ site_names sites !! site = Some name
    /\ data = legend_data color
    /\ (dom data = colour_keys
        \/ (data = ∅ /\ exists cs, color = color_seq cs
                                   /\ (length cs < 2)%nat)).
Proof.
  rewrite events_site_legend_loop.
  pose proof (legend_loop_spec (site_names sites) items ∅) as H.
  destruct (legend_loop (site_names sites) items ∅) as [e | l];
    [discriminate |].
  intros [= <-]. simpl. destruct H as [_ Hentries].
  rewrite Hentries. intros Hentry.
  apply entry_of_inv in Hentry as [H | (site & color & Hin & Hs & ->)].
  - rewrite lookup_empty in H. discriminate.
  - exists site, color. repeat split; try assumption.
    apply legend_data_keys.
Qed.

End LegendProperties.

(** *** The agenda tags *)

Section AgendaProperties.

Variable int_of_str : string -> option Z.

(** The first rows of a list in order come no later than the others. *)
Lemma take_earliest (l : list Occurrence) k a b :
  StronglySorted ordering l ->
  In a (take k l) -> In b (drop k l) ->
  le (start_time a) (start_time b).
Proof.
  intros Hs Ha Hb. rewrite <- (take_drop k l) in Hs.
  apply ordering_start.
  apply (StronglySorted_app_1_elem_of ordering _ _ a b Hs);
    now apply list_elem_of_In.
Qed.

(** With a bound that is no negative number the tags take the first rows of
    the query set. *)
Lemma limited_first qs kwargs v n :
  kwargs !! "limit" = Some v ->
  py_int int_of_str v = inr n ->
  0 <= n ->
  exists q,
    limited int_of_str qs kwargs = inr q
    /\ fetch qs = rows q ++ drop (Z.to_nat n) (fetch qs)
    /\ length (rows q) = Nat.min (Z.to_nat n) (length (fetch qs))
    /\ forall a b, In a (rows q) -> In b (drop (Z.to_nat n) (fetch qs)) ->
                   le (start_time a) (start_time b).
Proof.
  intros Hk Hv Hn. unfold limited, slice_to. rewrite Hk, Hv.
  replace (n <? 0) with false by (symmetry; apply Z.ltb_ge; lia).
  eexists. split; [reflexivity |]. unfold rows. simpl.
  split; [now rewrite take_drop |]. split; [apply length_take |].
  intros a b. apply take_earliest, fetch_strongly_sorted.
Qed.

(** X15. With [limit=n], [n] not negative, [get_agenda] and
    [get_site_agenda] return the [n] earliest upcoming occurrences of their
    manager (all of them when there are fewer): the rows are the head of
    the full list, and no row left out starts before a row returned. *)
Theorem agenda_limit_earliest c kwargs v n :
  kwargs !! "limit" = Some v ->
  py_int int_of_str v = inr n ->
  0 <= n ->
  (exists q,
     get_agenda int_of_str c kwargs = inr q
     /\ fetch (upcoming objects c None None)
        = rows q ++ drop (Z.to_nat n) (fetch (upcoming objects c None None))
     /\ length (rows q)
        = Nat.min (Z.to_nat n)
            (length (fetch (upcoming objects c None None)))
     /\ forall a b,
          In a (rows q) ->
          In b (drop (Z.to_nat n) (fetch (upcoming objects c None None))) ->
          le (start_time a) (start_time b))
  /\ (exists q,
        get_site_agenda int_of_str c kwargs = inr q
        /\ fetch (upcoming site_related c None None)
           = rows q
             ++ drop (Z.to_nat n) (fetch (upcoming site_related c None None))
        /\ length (rows q)
           = Nat.min (Z.to_nat n)
               (length (fetch (upcoming site_related c None None)))
        /\ forall a b,
             In a (rows q) ->
             In b (drop (Z.to_nat n)
                     (fetch (upcoming site_related c None None))) ->
             le (start_time a) (start_time b)).
Proof.
  intros Hk Hv Hn. split; now apply limited_first with (v := v).
Qed.

Lemma limited_fails qs kwargs :
  (exists e, limited int_of_str qs kwargs = inl e) <->
  exists v,
    kwargs !! "limit" = Some v
    /\ ((exists e, py_int int_of_str v = inl e)
        \/ exists n, py_int int_of_str v = inr n /\ n < 0).
Proof.
  unfold limited, slice_to.
  destruct (kwargs !! "limit") as [v |].
  - destruct (py_int int_of_str v) as [e | n] eqn:Hv.
    + split; [intros _ | intros _; eauto].
      exists v. split; [reflexivity |]. left. eauto.
    + destruct (Z.ltb_spec n 0) as [Hneg | Hpos].
      * split; [intros _ | intros _; eauto].
        exists v. split; [reflexivity |]. right. eauto.
      * split; [intros [e He]; discriminate |].
        intros (v' & Hv' & Hcase). injection Hv' as <-.
        destruct Hcase as [[e He] | (n' & Hn' & Hneg)].
        -- rewrite Hv in He. discriminate.
        -- rewrite Hv in Hn'. injection Hn' as <-. lia.
  - split; [intros [e He]; discriminate | intros (v & Hv & _); discriminate].
Qed.

(** X16. [get_agenda] fails exactly when it is given a [limit] that [int]
    does not take ([None]: [TypeError]; a string that writes no integer:
    [ValueError]) or that is negative; without [limit] it returns every
    upcoming occurrence, whatever else is passed. *)
Theorem agenda_limit_errors c kwargs :
  ((exists e, get_agenda int_of_str c kwargs = inl e) <->
   exists v,
     kwargs !! "limit" = Some v
     /\ ((exists e, py_int int_of_str v = inl e)
         \/ exists n, py_int int_of_str v = inr n /\ n < 0))
  /\ (kwargs !! "limit" = Some arg_none ->
      get_agenda int_of_str c kwargs = inl TypeError)
  /\ (forall s, kwargs !! "limit" = Some (arg_str s) ->
                int_of_str s = None ->
                get_agenda int_of_str c kwargs = inl ValueError)
  /\ (forall n, kwargs !! "limit" = Some (arg_int n) -> n < 0 ->
                exists e, get_agenda int_of_str c kwargs = inl e)
  /\ (kwargs !! "limit" = None ->
      exists q, get_agenda int_of_str c kwargs = inr q
                /\ rows q = fetch (upcoming objects c None None)).
Proof.
  unfold get_agenda. split; [apply limited_fails |].
  unfold limited, slice_to. repeat split.
  - now intros ->.
  - intros s -> Hs. simpl. now rewrite Hs.
  - intros n -> Hn. simpl. exists AssertionError.
    now replace (n <? 0) with true by (symmetry; apply Z.ltb_lt; lia).
  - intros ->. eexists. split; reflexivity.
Qed.

(** X17. Whatever the limit, the four tags only show occurrences that
    start at the current time or later, and the two site tags only those of
    the current site; [show_agenda] flags [all_sites], [show_site_agenda]
    does not set it. *)
Theorem agenda_only_upcoming c kwargs o :
  (forall q, get_agenda int_of_str c kwargs = inr q ->
             In o (rows q) ->
             In o (table c) /\ le (timezone_now c) (start_time o))
  /\ (forall q, get_site_agenda int_of_str c kwargs = inr q ->
                In o (rows q) ->
                In o (table c)
                /\ event_site (event o) = current_site_id c
                /\ le (timezone_now c) (start_time o))
  /\ (forall ctx, show_agenda int_of_str c kwargs = inr ctx ->
                  all_sites ctx = Some true
                  /\ (In o (rows (occurrences ctx)) ->
                      In o (table c)
                      /\ le (timezone_now c) (start_time o)))
  /\ (forall ctx, show_site_agenda int_of_str c kwargs = inr ctx ->
                  all_sites ctx = None
                  /\ (In o (rows (occurrences ctx)) ->
                      In o (table c)
                      /\ event_site (event o) = current_site_id c
                      /\ le (timezone_now c) (start_time o))).
Proof.
  assert (Hrows : forall qs q,
            limited int_of_str qs kwargs = inr q ->
            In o (rows q) -> In o (fetch qs)).
  { intros qs q. unfold limited, slice_to, rows.
    destruct (kwargs !! "limit") as [v |].
    - destruct (py_int int_of_str v) as [e | n]; [discriminate |].
      destruct (n <? 0); [discriminate |]. intros [= <-]. simpl.
      intros Hin. apply list_elem_of_In.
      apply (subseteq_take (Z.to_nat n)), list_elem_of_In, Hin.
    - intros [= <-]. simpl. tauto. }
  assert (Hall : forall q,
            limited int_of_str (upcoming objects c None None) kwargs = inr q ->
            In o (rows q) ->
            In o (table c) /\ le (timezone_now c) (start_time o)).
  { intros q Hq Hin. apply (Hrows _ _ Hq), In_upcoming in Hin.
    destruct Hin as [Hin Hle]. apply stored_objects in Hin. now split. }
  assert (Hsite : forall q,
            limited int_of_str (upcoming site_related c None None) kwargs
              = inr q ->
            In o (rows q) ->
            In o (table c) /\ event_site (event o) = current_site_id c
            /\ le (timezone_now c) (start_time o)).
  { intros q Hq Hin. apply (Hrows _ _ Hq), In_upcoming in Hin.
    destruct Hin as [Hin Hle]. apply In_site_related in Hin.
    simpl in Hle. tauto. }
  split; [exact Hall |]. split; [exact Hsite |]. split.
  - unfold show_agenda. intros ctx.
    destruct (limited int_of_str (upcoming objects c None None) kwargs)
      as [e | q] eqn:Hq; [discriminate |].
    intros [= <-]. simpl. split; [reflexivity | now apply Hall].
  - unfold show_site_agenda. intros ctx.
    destruct (limited int_of_str (upcoming site_related c None None) kwargs)
      as [e | q] eqn:Hq; [discriminate |].
    intros [= <-]. simpl. split; [reflexivity | now apply Hsite].
Qed.

End AgendaProperties.

(** *** [create_event] *)

Section CreationProperties.

Variable DEFAULT_OCCURRENCE_DURATION : timedelta.
Variable get_or_create : string -> exn + Z.
Variable objects_create : string -> string -> option Z -> exn + Event.
Variable rrule : rrule_impl.

(** Without [count] and [until] one row is put behind the table, whatever
    the library. *)
Lemma add_occurrences_unbounded self s e params db :
  params !! "count" = None -> params !! "until" = None ->
  add_occurrences rrule self s e params db
  = (db ++ [mkOccurrence None s e self], None).
Proof.
  intros Hc Hu. unfold add_occurrences.
  rewrite !contains_setdefault_ne by discriminate.
  apply contains_false in Hc, Hu. now rewrite Hc, Hu.
Qed.

(** The start of the hour: a valid time, not after the given one and less
    than an hour before it. *)
Lemma start_of_hour now :
  valid now = true ->
  valid (replace_minute_second_microsecond now) = true
  /\ 0 <= to_us now - to_us (replace_minute_second_microsecond now)
     < 3600 * US_PER_SECOND.
Proof.
  unfold valid. simpl. rewrite !andb_true_iff, !Z.leb_le. intros Hv.
  split; [lia |].
  unfold to_us, timedelta_of, toordinal. simpl.
  unfold US_PER_DAY, US_PER_SECOND. lia.
Qed.

(** X18. Without [count] and [until], [create_event] stores exactly one
    occurrence of the event it returns: from [start_time], or else from the
    start of the current hour, to [end_time], or else to the default
    duration later; when that end is past the last representable date it
    raises [OverflowError] and stores no occurrence. *)
Theorem create_event_single title event_category description start_time
    end_time params c category ev :
  params !! "count" = None ->
  params !! "until" = None ->
  resolve_category get_or_create event_category = inr category ->
  objects_create title description category = inr ev ->
  (forall e, end_time = Some e ->
     create_event DEFAULT_OCCURRENCE_DURATION get_or_create objects_create
       rrule title event_category description start_time end_time params c
     = (table c
        ++ [mkOccurrence None
              (or_else start_time
                 (replace_minute_second_microsecond (datetime_now c)))
              e ev],
        inr ev))
  /\ (forall e, end_time = None ->
        add (or_else start_time
               (replace_minute_second_microsecond (datetime_now c)))
          DEFAULT_OCCURRENCE_DURATION = Some e ->
        create_event DEFAULT_OCCURRENCE_DURATION get_or_create
          objects_create rrule title event_category description start_time
          end_time params c
        = (table c
           ++ [mkOccurrence None
                 (or_else start_time
                    (replace_minute_second_microsecond (datetime_now c)))
                 e ev],
           inr ev))
  /\ (end_time = None ->
      add (or_else start_time
             (replace_minute_second_microsecond (datetime_now c)))
        DEFAULT_OCCURRENCE_DURATION = None ->
      create_event DEFAULT_OCCURRENCE_DURATION get_or_create objects_create
        rrule title event_category description start_time end_time params c
      = (table c, inl OverflowError)).
Proof.
  intros Hc Hu Hcat Hev. unfold create_event. rewrite Hcat, Hev.
  repeat split.
  - intros e ->. now rewrite (add_occurrences_unbounded _ _ _ _ _ Hc Hu).
  - intros e -> Hadd. rewrite Hadd.
    now rewrite (add_occurrences_unbounded _ _ _ _ _ Hc Hu).
  - intros -> Hadd. now rewrite Hadd.
Qed.

(** X19. With no times given and a rule without [count] and [until], the
    one occurrence stored starts at the start of the current hour, which is
    not after now and less than an hour before it, and lasts the default
    duration to the microsecond. *)
Theorem create_event_default_times title event_category description params
    c db ev o :
  params !! "count" = None ->
  params !! "until" = None ->
  valid (datetime_now c) = true ->
  create_event DEFAULT_OCCURRENCE_DURATION get_or_create objects_create
    rrule title event_category description None None params c
  = (db, inr ev) ->
  In o db -> ~ In o (table c) ->
  event o = ev
  /\ start_time o = replace_minute_second_microsecond (datetime_now c)
  /\ 0 <= to_us (datetime_now c) - to_us (start_time o)
     < 3600 * US_PER_SECOND
  /\ to_us (end_time o) - to_us (start_time o)
     = DEFAULT_OCCURRENCE_DURATION.
Proof.
  intros Hc Hu Hvalid. unfold create_event.
  destruct (resolve_category get_or_create event_category) as [e | cat];
    [discriminate |].
  destruct (objects_create title description cat) as [e | event];
    [discriminate |].
  simpl or_else.
  destruct (add _ DEFAULT_OCCURRENCE_DURATION) as [end' |] eqn:Hadd;
    [| discriminate].
  rewrite (add_occurrences_unbounded _ _ _ _ _ Hc Hu).
  intros [= <- <-] Hin Hnew.
  apply in_app_or in Hin as [Hin | [<- | []]]; [contradiction |].
  simpl. repeat split; try apply (start_of_hour _ Hvalid).
  rewrite (to_us_add _ _ _ Hadd). lia.
Qed.

(** X20. Whatever the rule and the library, [create_event] leaves the
    occurrences that were there as they were; the new ones are all of the
    event it returns, and when the category or the event cannot be made the
    table is untouched. *)
Theorem create_event_only_appends title event_category description
    start_time end_time params c :
  (exists created,
     fst (create_event DEFAULT_OCCURRENCE_DURATION get_or_create
            objects_create rrule title event_category description
            start_time end_time params c)
     = table c ++ created
     /\ forall ev,
          snd (create_event DEFAULT_OCCURRENCE_DURATION get_or_create
                 objects_create rrule title event_category description
                 start_time end_time params c) = inr ev ->
          objects_create title description
            (match resolve_category get_or_create event_category with
             | inr category => category
             | inl _ => None
             end) = inr ev
          /\ Forall (fun o => event o = ev) created)
  /\ (forall e,
        resolve_category get_or_create event_category = inl e ->
        create_event DEFAULT_OCCURRENCE_DURATION get_or_create
          objects_create rrule title event_category description start_time
          end_time params c = (table c, inl e))
  /\ (forall category e,
        resolve_category get_or_create event_category = inr category ->
        objects_create title description category = inl e ->
        create_event DEFAULT_OCCURRENCE_DURATION get_or_create
          objects_create rrule title event_category description start_time
          end_time params c = (table c, inl e)).
Proof.
  unfold create_event. split; [| split].
  - destruct (resolve_category get_or_create event_category) as [e | cat].
    { exists []. rewrite app_nil_r. split; [reflexivity | discriminate]. }
    destruct (objects_create title description cat) as [e | event] eqn:Hev.
    { exists []. rewrite app_nil_r. split; [reflexivity | discriminate]. }
    destruct (match end_time with
              | Some e => Some e
              | None => _
              end) as [end' |].
    2: { exists []. rewrite app_nil_r. split; [reflexivity | discriminate]. }
    destruct (add_occurrences_appends rrule event
                (or_else start_time
                   (replace_minute_second_microsecond (datetime_now c)))
                end' params (table c)) as (created & Hrun & Hall).
    exists created.
    destruct (add_occurrences rrule event _ end' params (table c))
      as [db [e |]]; simpl in *.
    + split; [exact Hrun | discriminate].
    + split; [exact Hrun |]. intros ev [= <-]. split; [reflexivity |].
      eapply Forall_impl; [exact Hall |]. now intros o [H _].
  - now intros e ->.
  - now intros category e -> ->.
Qed.

End CreationProperties.

(** *** Examples of the further properties *)

(** X1, at the occurrences of March. *)
Lemma upcoming_later_reference_witness :
  le mar01 mar10
  /\ In late (fetch (upcoming objects march (Some mar10) None))
  /\ In late (fetch (upcoming objects march (Some mar01) None)).
Proof.
  assert (Hle : le mar01 mar10) by discriminate.
  assert (Hin : In late (fetch (upcoming objects march (Some mar10) None))).
  { vm_compute. auto. }
  split; [exact Hle |]. split; [exact Hin |].
  exact (upcoming_later_reference objects march mar01 mar10 None None late
           Hle Hin).
Defined.

(** X3, at the spanning occurrence and the day it spans. *)
Lemma daily_occurrences_is_overlap_witness :
  le (start_time spanning) (end_time spanning)
  /\ In spanning (fetch (daily_occurrences objects ides (Some mar15) None)).
Proof.
  assert (Hse : le (start_time spanning) (end_time spanning))
    by discriminate.
  split; [exact Hse |].
  apply (proj2 (daily_occurrences_is_overlap objects ides (Some mar15) None
                  spanning Hse)).
  split; [apply stored_objects; vm_compute; auto |].
  split; [discriminate |]. split; [discriminate | exact I].
Defined.

(** X4, at the morning occurrence. *)
Lemma daily_occurrences_own_days_witness :
  In morning
    (fetch (daily_occurrences objects ides
              (Some (a_datetime (start_time morning))) (Some borrel)))
  /\ In morning
       (fetch (daily_occurrences objects ides
                 (Some (a_datetime (end_time morning))) (Some borrel))).
Proof.
  assert (Hin : In morning (fetch (get_queryset objects ides))).
  { apply stored_objects. vm_compute. auto. }
  assert (Hown : owned_by (Some borrel) morning) by reflexivity.
  split.
  - apply (proj1 (daily_occurrences_own_days objects ides (Some borrel)
                    morning Hin Hown)); reflexivity.
  - apply (proj2 (daily_occurrences_own_days objects ides (Some borrel)
                    morning Hin Hown)); reflexivity.
Defined.

(** X5, at an occurrence from 23:59:59.2 to 23:59:59.8: stored, and not
    found on its own day. *)
Lemma daily_occurrences_misses_last_second_witness :
  In flash (table with_flash)
  /\ ~ In flash
       (fetch (daily_occurrences objects with_flash (Some mar15) None)).
Proof.
  split; [left; reflexivity |].
  apply (daily_occurrences_misses_last_second objects with_flash
           (Some mar15) None flash).
  - repeat split.
  - repeat split.
  - repeat split.
Defined.

(** X6, at the clock of [ides]: the event "Borrel" has the occurrence of
    the next day ahead, the event "Congres" nothing that starts later. *)
Lemma next_occurrence_earliest_witness :
  next_occurrence borrel ides = Some next_day
  /\ le (datetime_now ides) (start_time next_day)
  /\ next_occurrence congres ides = None
  /\ lt (start_time spanning) (datetime_now ides).
Proof.
  assert (H1 : next_occurrence borrel ides = Some next_day)
    by (vm_compute; reflexivity).
  assert (H2 : next_occurrence congres ides = None)
    by (vm_compute; reflexivity).
  split; [exact H1 |]. split; [| split; [exact H2 |]].
  - exact (proj1 (proj2 (proj2 (proj2 (next_occurrence_earliest borrel ides)
                                  next_day H1)))).
  - apply (proj1 (proj1 (next_occurrence_earliest congres ides)) H2 spanning).
    + right. right. left. reflexivity.
    + reflexivity.
Defined.

(** X7, at the occurrences of March. *)
Lemma occurrence_lt_strict_witness :
  occurrence_lt early late = true /\ ordering early late
  /\ ~ ordering late early.
Proof.
  assert (H : occurrence_lt early late = true) by reflexivity.
  split; [exact H |].
  exact (proj2 (proj2 (occurrence_lt_strict early late early)) H).
Defined.

(** X9, at a library that yields the start and then fails. *)
Lemma add_occurrences_keeps_partial_witness :
  exists created,
    add_occurrences rrule_broken borrel jan01_0900 jan01_1000 count3 [early]
      = ([early] ++ created, Some (Exn "ValueError"))
    /\ map start_time created = [jan01_0900]
    /\ Forall (made borrel (sub jan01_1000 jan01_0900)) created.
Proof.
  apply (add_occurrences_keeps_partial rrule_broken borrel jan01_0900
           jan01_1000 count3 [early] [jan01_0900] (Exn "ValueError")).
  - left. exists (PyInt 3). reflexivity.
  - reflexivity.
  - repeat constructor. vm_compute. eauto.
Defined.

(** X10, at two daily values from 9999-12-30 12:00, each 23 hours long: the
    second would end in year 10000. *)
Lemma add_occurrences_overflow_witness :
  exists created,
    add_occurrences rrule_plain borrel dec30_noon dec31_1100 count2 []
      = ([] ++ created, Some OverflowError)
    /\ map start_time created = [dec30_noon].
Proof.
  apply (add_occurrences_overflow rrule_plain borrel dec30_noon dec31_1100
           count2 [] [dec30_noon] dec31_noon [] None).
  - left. exists (PyInt 2). reflexivity.
  - vm_compute. reflexivity.
  - repeat constructor. vm_compute. eauto.
  - vm_compute. reflexivity.
Defined.

Lemma two_sites_keys : NoDup (map site_id two_sites).
Proof.
  apply (bool_decide_unpack _). vm_compute. exact I.
Qed.

(** X11, at a setting that names site 7 among sites 1 and 2. *)
Lemma events_site_legend_KeyError_witness :
  events_site_legend two_sites colours_with_stranger = inl KeyError
  /\ exists site color,
       In (site, color) colours_with_stranger
       /\ forall s, In s two_sites -> site_id s <> site.
Proof.
  assert (H : events_site_legend two_sites colours_with_stranger
              = inl KeyError) by (vm_compute; reflexivity).
  split; [exact H |].
  apply (proj1 (proj1 (events_site_legend_KeyError two_sites
                         colours_with_stranger))).
  exists KeyError. exact H.
Defined.

Lemma legend_of_two_run : events_site_legend two_sites colours = inr legend_of_two.
Proof. vm_compute. reflexivity. Qed.

(** X12, at two sites with a colour each. *)
Lemma events_site_legend_names_witness :
  events_site_legend two_sites colours = inr legend_of_two
  /\ is_Some (legend legend_of_two !! "Utrecht").
Proof.
  split; [exact legend_of_two_run |].
  apply (proj2 (events_site_legend_names two_sites colours legend_of_two
                  "Utrecht" two_sites_keys legend_of_two_run)).
  exists (mkSite 2 "Utrecht"), (color_seq ["blue"; "black"]).
  split; [right; left; reflexivity |].
  split; [right; left; reflexivity | reflexivity].
Defined.

(** X13, at the same: the entry of "Utrecht" is that of its pair. *)
Lemma events_site_legend_last_wins_witness :
  legend legend_of_two !! "Utrecht" = Some (three "blue" "black" "blue").
Proof.
  apply (events_site_legend_last_wins two_sites [(1, color_str "#ff0000")]
           (mkSite 2 "Utrecht") (color_seq ["blue"; "black"]) []
           legend_of_two two_sites_keys).
  - right. left. reflexivity.
  - exact legend_of_two_run.
  - intros s' color' _ [].
Defined.

(** X14, at the same: the entry of "Landelijk" has the three keys. *)
Lemma events_site_legend_entries_witness :
  exists site color,
    In (site, color) colours
    /\ site_names two_sites !! site = Some "Landelijk"
    /\ three "#ff0000" "white" "#ff0000" = legend_data color
    /\ dom (three "#ff0000" "white" "#ff0000") = colour_keys.
Proof.
  destruct (events_site_legend_entries two_sites colours legend_of_two
              "Landelijk" (three "#ff0000" "white" "#ff0000")
              legend_of_two_run)
    as (site & color & Hin & Hs & Hd & _); [vm_compute; reflexivity |].
  exists site, color. split; [exact Hin |]. split; [exact Hs |].
  split; [exact Hd | apply dom_three].
Defined.

(** X15, at [limit="1"] and the occurrences of March seen from the first
    of the month: the agenda is the earlier of the two. *)
Lemma agenda_limit_earliest_witness :
  exists q,
    get_agenda int_of_small march limit1 = inr q
    /\ rows q = [early].
Proof.
  destruct (proj1 (agenda_limit_earliest int_of_small march limit1
                     (arg_str "1") 1 eq_refl eq_refl ltac:(lia)))
    as (q & Hq & _).
  exists q. split; [exact Hq |].
  vm_compute in Hq. injection Hq as <-. vm_compute. reflexivity.
Defined.

(** X16, at [limit=-1] and at no limit. *)
Lemma agenda_limit_errors_witness :
  (exists e, get_agenda int_of_small march limit_minus = inl e)
  /\ exists q, get_agenda int_of_small march ∅ = inr q
               /\ rows q = fetch (upcoming objects march None None).
Proof.
  split.
  - apply (proj1 (proj2 (proj2 (proj2 (agenda_limit_errors int_of_small
                                          march limit_minus)))) (-1));
      [reflexivity | lia].
  - apply (proj2 (proj2 (proj2 (proj2 (agenda_limit_errors int_of_small
                                          march ∅))))).
    reflexivity.
Defined.

(** X17, at the site agenda of site 1 on the Ides of March: the occurrence
    of the next day is shown, and it is of that site. *)
Lemma agenda_only_upcoming_witness :
  exists q,
    get_site_agenda int_of_small ides ∅ = inr q
    /\ In next_day (rows q)
    /\ event_site (event next_day) = current_site_id ides.
Proof.
  eexists. split; [reflexivity |].
  assert (Hin : In next_day
                  (rows (mkSliced (upcoming site_related ides None None)
                           None))) by (vm_compute; auto).
  split; [exact Hin |].
  exact (proj1 (proj2 (proj1 (proj2 (agenda_only_upcoming int_of_small ides
                                        ∅ next_day)) _ eq_refl Hin))).
Defined.

(** X18, at an event made at 17:42:07 with no times and no rule: one
    occurrence from 17:00 to 18:00. *)
Lemma create_event_single_witness :
  create_event one_hour category5 event9 rrule_plain "Borrel"
    (category_name "Feest") "" None None ∅ ides
  = (table ides
     ++ [mkOccurrence None (mkdatetime 2024 3 15 17 0 0 0)
           (mkdatetime 2024 3 15 18 0 0 0)
           (mkEvent 9 "Borrel" 1 (Some 5))],
     inr (mkEvent 9 "Borrel" 1 (Some 5))).
Proof.
  destruct (create_event_single one_hour category5 event9 rrule_plain
              "Borrel" (category_name "Feest") "" None None ∅ ides
              (Some 5) (mkEvent 9 "Borrel" 1 (Some 5)))
    as (_ & Hdefault & _); [reflexivity | reflexivity | reflexivity
                            | reflexivity |].
  apply Hdefault; [reflexivity | vm_compute; reflexivity].
Defined.

(** X19, at the same: 42 minutes and 7 seconds after the start of the
    hour. *)
Lemma create_event_default_times_witness :
  exists o,
    start_time o = mkdatetime 2024 3 15 17 0 0 0
    /\ to_us (end_time o) - to_us (start_time o) = one_hour
    /\ 0 <= to_us (datetime_now ides) - to_us (start_time o)
       < 3600 * US_PER_SECOND.
Proof.
  exists (mkOccurrence None (mkdatetime 2024 3 15 17 0 0 0)
            (mkdatetime 2024 3 15 18 0 0 0)
            (mkEvent 9 "Borrel" 1 (Some 5))).
  destruct (create_event_default_times one_hour category5 event9
              rrule_plain "Borrel" (category_name "Feest") "" ∅ ides
              (table ides
               ++ [mkOccurrence None (mkdatetime 2024 3 15 17 0 0 0)
                     (mkdatetime 2024 3 15 18 0 0 0)
                     (mkEvent 9 "Borrel" 1 (Some 5))])
              (mkEvent 9 "Borrel" 1 (Some 5))
              (mkOccurrence None (mkdatetime 2024 3 15 17 0 0 0)
                 (mkdatetime 2024 3 15 18 0 0 0)
                 (mkEvent 9 "Borrel" 1 (Some 5))))
    as (_ & Hs & Hnow & Hlen).
  - reflexivity.
  - reflexivity.
  - reflexivity.
  - vm_compute. reflexivity.
  - apply in_or_app. right. left. reflexivity.
  - intros [H | [H | [H | []]]]; discriminate H.
  - split; [exact Hs |]. split; [exact Hlen | exact Hnow].
Defined.

(** X20, at the same with a rule of three daily occurrences: the three
    rows of the table stay in front. *)
Lemma create_event_only_appends_witness :
  exists created,
    fst (create_event one_hour category5 event9 rrule_plain "Borrel"
           (category_name "Feest") "" None None count3 ides)
    = table ides ++ created
    /\ Forall (fun o => event o = mkEvent 9 "Borrel" 1 (Some 5)) created.
Proof.
  destruct (proj1 (create_event_only_appends one_hour category5 event9
                     rrule_plain "Borrel" (category_name "Feest") "" None
                     None count3 ides)) as (created & Hfst & Hev).
  exists created. split; [exact Hfst |].
  apply (Hev (mkEvent 9 "Borrel" 1 (Some 5))). vm_compute. reflexivity.
Defined.

